(** * Decorators of Mylib_python: call logger, result clamp, signature
      validator and coroutine primer

    A shallow embedding of [decorators.py], [mylog.py] and [mynumber.py].
    Python callables become records holding what the decorators read
    ([__name__], [__annotations__], the result of [inspect.getfullargspec])
    together with a state-passing call function; exceptions are an explicit
    [Raise] outcome; the process-wide logger named 'Logger' and the files
    its handlers write to are an explicit process state. *)

From Stdlib Require Import Ascii ZArith Lia Qcanon.
From stdpp Require Import base numbers strings gmap list pretty.

Local Open Scope Z_scope.

(** ** Strings *)

(** The double-quote character, used by the assertion messages. *)
Definition dquote : string := String "034"%char EmptyString.

Definition ascii_lower (c : ascii) : ascii :=
  let n := N_of_ascii c in
  if ((65 <=? n) && (n <=? 90))%N then ascii_of_N (n + 32) else c.

Definition ascii_upper (c : ascii) : ascii :=
  let n := N_of_ascii c in
  if ((97 <=? n) && (n <=? 122))%N then ascii_of_N (n - 32) else c.

(** [str.lower] and [str.upper], on ASCII text. *)
Fixpoint lower (s : string) : string :=
  match s with
  | EmptyString => EmptyString
  | String c s' => String (ascii_lower c) (lower s')
  end.

Fixpoint upper (s : string) : string :=
  match s with
  | EmptyString => EmptyString
  | String c s' => String (ascii_upper c) (upper s')
  end.

(** [sep.join(l)]. *)
Definition join (sep : string) (l : list string) : string := String.concat sep l.

Definition endswith_sep (s : string) : bool :=
  match String.rev s with
  | String c _ => bool_decide (c = "/"%char)
  | EmptyString => false
  end.

Definition startswith_sep (s : string) : bool :=
  match s with
  | String c _ => bool_decide (c = "/"%char)
  | EmptyString => false
  end.

(** [os.path.join(a, b)] for two components (POSIX flavour). *)
Definition path_join (a b : string) : string :=
  if startswith_sep b then b
  else if bool_decide (a = EmptyString) || endswith_sep a then a +:+ b
  else a +:+ "/" +:+ b.

(** ** Python objects *)

(** The classes that occur as annotations and as runtime types. *)
Inductive pyclass :=
  | c_object | c_int | c_bool | c_str | c_NoneType | c_float | c_list.

#[global] Instance pyclass_eq_dec : EqDecision pyclass.
Proof. solve_decision. Defined.

Definition class_name (c : pyclass) : string :=
  match c with
  | c_object => "object" | c_int => "int" | c_bool => "bool"
  | c_str => "str" | c_NoneType => "NoneType" | c_float => "float"
  | c_list => "list"
  end.

(** What [f'{cls}'] prints for a class. *)
Definition class_repr (c : pyclass) : string :=
  "<class '" +:+ class_name c +:+ "'>".

(** [issubclass(c, d)]: every class derives from [object], and [bool]
    derives from [int]. *)
Definition issubclass (c d : pyclass) : bool :=
  bool_decide (c = d) || bool_decide (d = c_object)
  || (bool_decide (c = c_bool) && bool_decide (d = c_int)).

(** The object protocol the decorators rely on: [repr(v)], [str(v)] and
    [type(v)]. *)
Class PyObject (V : Type) := {
  repr : V → string;
  str : V → string;
  type : V → pyclass;
}.

Definition isinstance `{PyObject V} (v : V) (t : pyclass) : bool :=
  issubclass (type v) t.

(** A concrete universe of values: [None], booleans, integers and strings
    (the [repr] of a string is exact for text without quotes, backslashes
    and control characters). *)
Inductive pyval :=
  | VNone
  | VBool (b : bool)
  | VInt (z : Z)
  | VStr (s : string).

Definition pyval_str (v : pyval) : string :=
  match v with
  | VNone => "None"
  | VBool true => "True"
  | VBool false => "False"
  | VInt z => pretty z
  | VStr s => s
  end.

Definition pyval_repr (v : pyval) : string :=
  match v with
  | VStr s => "'" +:+ s +:+ "'"
  | _ => pyval_str v
  end.

Definition pyval_type (v : pyval) : pyclass :=
  match v with
  | VNone => c_NoneType
  | VBool _ => c_bool
  | VInt _ => c_int
  | VStr _ => c_str
  end.

#[global] Instance pyval_object : PyObject pyval :=
  {| repr := pyval_repr; str := pyval_str; type := pyval_type |}.

(** ** Numbers *)

(** The comparisons [a < b] and [a > b] of a class of values. *)
Class PyOrd (R : Type) := {
  py_lt : R → R → bool;
  py_gt : R → R → bool;
}.

(** Integers. *)
#[global] Instance Z_ord : PyOrd Z := {| py_lt := Z.ltb; py_gt := Z.gtb |}.

(** Python's real numbers, by value: integers, finite floats and
    fractions are rationals (they compare with each other exactly), and
    floats have the two infinities and NaN. *)
Inductive number :=
  | Finite (q : Qc)
  | PosInf
  | NegInf
  | NaN.

(** The integer [z] as a number. *)
Definition Int (z : Z) : number := Finite (Q2Qc (QArith_base.inject_Z z)).

(** [a < b]: every comparison with NaN is false. *)
Definition num_lt (a b : number) : bool :=
  match a, b with
  | NaN, _ | _, NaN => false
  | Finite p, Finite q => bool_decide (p < q)%Qc
  | NegInf, NegInf => false
  | NegInf, _ => true
  | _, NegInf => false
  | PosInf, _ => false
  | _, PosInf => true
  end.

(** [a <= b]. *)
Definition num_le (a b : number) : bool :=
  match a, b with
  | NaN, _ | _, NaN => false
  | Finite p, Finite q => bool_decide (p ≤ q)%Qc
  | NegInf, _ => true
  | _, NegInf => false
  | _, PosInf => true
  | PosInf, _ => false
  end.

#[global] Instance number_ord : PyOrd number :=
  {| py_lt := num_lt; py_gt := λ a b, num_lt b a |}.

(** ** Exceptions and outcomes *)

Inductive exn_class :=
  | AssertionError | KeyError | AttributeError | TypeError | ValueError
  | ZeroDivisionError | StopIteration | RuntimeError
  | KeyboardInterrupt | SystemExit | GeneratorExit
  | UserError (qualname : string).

#[global] Instance exn_class_eq_dec : EqDecision exn_class.
Proof. solve_decision. Defined.

Definition exn_class_name (c : exn_class) : string :=
  match c with
  | AssertionError => "AssertionError" | KeyError => "KeyError"
  | AttributeError => "AttributeError" | TypeError => "TypeError"
  | ValueError => "ValueError" | ZeroDivisionError => "ZeroDivisionError"
  | StopIteration => "StopIteration" | RuntimeError => "RuntimeError"
  | KeyboardInterrupt => "KeyboardInterrupt" | SystemExit => "SystemExit"
  | GeneratorExit => "GeneratorExit" | UserError q => q
  end.

(** [issubclass(c, Exception)]: the three exits derive from [BaseException]
    only, user-defined errors derive from [Exception]. *)
Definition is_Exception (c : exn_class) : bool :=
  match c with
  | KeyboardInterrupt | SystemExit | GeneratorExit => false
  | _ => true
  end.

(** An exception object: its class and the text [str(e)] gives. *)
Record exn := mk_exn { exn_type : exn_class; exn_str : string }.

#[global] Instance exn_eq_dec : EqDecision exn.
Proof. solve_decision. Defined.

(** What [f'{type(e)}'] prints. *)
Definition exn_type_repr (e : exn) : string :=
  "<class '" +:+ exn_class_name (exn_type e) +:+ "'>".

(** The result of running a piece of Python: a value, or a raised
    exception. *)
Inductive outcome (A : Type) :=
  | Return (a : A)
  | Raise (e : exn).
Arguments Return {A} a.
Arguments Raise {A} e.

(** A computation over a state [S]. *)
Definition M (S A : Type) : Type := S → outcome A * S.

Definition ret {S A} (a : A) : M S A := λ s, (Return a, s).
Definition raise {S A} (e : exn) : M S A := λ s, (Raise e, s).
Definition bind {S A B} (c : M S A) (k : A → M S B) : M S B :=
  λ s, match c s with
       | (Return a, s') => k a s'
       | (Raise e, s') => (Raise e, s')
       end.

Notation "x <- c ;; k" := (bind c (λ x, k))
  (at level 100, c at next level, right associativity).

(** [assert cond, msg] with the interpreter in its default mode
    ([__debug__] true). *)
Definition assert {S} (cond : bool) (msg : string) : M S unit :=
  if cond then ret tt else raise (mk_exn AssertionError msg).

(** ** Callables *)

(** The named tuple returned by [inspect.getfullargspec] (fields [args],
    [varargs], [varkw], [defaults], [kwonlyargs], [kwonlydefaults]), without
    the annotations, which are kept on the function. *)
Record FullArgSpec (V : Type) := {
  spec_args : list string;
  spec_varargs : option string;
  spec_varkw : option string;
  spec_defaults : list V;
  spec_kwonlyargs : list string;
  spec_kwonlydefaults : list (string * V);
}.
Arguments spec_args {V} _.
Arguments spec_varargs {V} _.
Arguments spec_varkw {V} _.
Arguments spec_defaults {V} _.
Arguments spec_kwonlyargs {V} _.
Arguments spec_kwonlydefaults {V} _.

(** A Python function over values [V] whose body acts on a state [W]:
    called with positional arguments and keyword items (in call order). *)
Record pyfunction (V W R : Type) := {
  f_name : string;
  f_annotations : gmap string pyclass;
  f_argspec : FullArgSpec V;
  f_call : list V → list (string * V) → M W R;
}.
Arguments f_name {V W R} _.
Arguments f_annotations {V W R} _.
Arguments f_argspec {V W R} _.
Arguments f_call {V W R} _ _ _.

(** ** The logging module *)

Definition NOTSET : Z := 0.
Definition DEBUG : Z := 10.
Definition INFO : Z := 20.
Definition WARNING : Z := 30.
Definition ERROR : Z := 40.
Definition CRITICAL : Z := 50.

(** The level constants of the module, as [getattr(logging, name)] finds
    them. *)
Definition logging_constants : gmap string Z :=
  list_to_map
    [("CRITICAL", CRITICAL); ("FATAL", CRITICAL); ("ERROR", ERROR);
     ("WARNING", WARNING); ("WARN", WARNING); ("INFO", INFO);
     ("DEBUG", DEBUG); ("NOTSET", NOTSET)].

(** A logger: its level, its [propagate] flag and its handlers.  Every
    handler the decorators install is a [FileHandler] with the default
    formatter and level, so a handler is the path it writes to. *)
Record Logger := {
  lg_level : Z;
  lg_propagate : bool;
  lg_handlers : list string;
}.

(** The process the call logger works in.  Its state: the logger that
    [logging.getLogger('Logger')] returns, the log files (one entry per
    record written, each written as the message and a newline), and the
    state [W] the wrapped functions act on.  Its environment, which
    nothing here changes: the directory [tempfile.gettempdir()] answers; what opening a
    path for appending raises, if anything ([FileNotFoundError] for a
    missing directory, [IsADirectoryError], [PermissionError], ...); and
    what a call, with one string, of those attributes of the logger does
    that this model does not spell out (see [Logger_attrs]), given the
    attribute name, the exception being handled if there is one, and the
    string. *)
Record process (W : Type) := {
  p_logger : Logger;
  p_files : gmap string (list string);
  p_tempdir : string;
  p_open : string → option exn;
  p_other : string → option exn → string →
            Logger * gmap string (list string) →
            outcome unit * (Logger * gmap string (list string));
  p_user : W;
}.
Arguments p_logger {W} _.
Arguments p_files {W} _.
Arguments p_tempdir {W} _.
Arguments p_open {W} _ _.
Arguments p_other {W} _ _ _ _ _.
Arguments p_user {W} _.

Definition set_logger {W} (lg : Logger) (p : process W) : process W :=
  {| p_logger := lg; p_files := p_files p;
     p_tempdir := p_tempdir p; p_open := p_open p; p_other := p_other p;
     p_user := p_user p |}.

Definition set_files {W} (fs : gmap string (list string)) (p : process W)
  : process W :=
  {| p_logger := p_logger p; p_files := fs;
     p_tempdir := p_tempdir p; p_open := p_open p; p_other := p_other p;
     p_user := p_user p |}.

Definition set_user {W} (u : W) (p : process W) : process W :=
  {| p_logger := p_logger p; p_files := p_files p;
     p_tempdir := p_tempdir p; p_open := p_open p; p_other := p_other p;
     p_user := u |}.

(** [logger.setLevel(n)], [logger.propagate = b],
    [logger.handlers.clear()], [logger.addHandler(h)]. *)
Definition setLevel (n : Z) (lg : Logger) : Logger :=
  {| lg_level := n; lg_propagate := lg_propagate lg;
     lg_handlers := lg_handlers lg |}.

Definition set_propagate (b : bool) (lg : Logger) : Logger :=
  {| lg_level := lg_level lg; lg_propagate := b;
     lg_handlers := lg_handlers lg |}.

Definition handlers_clear (lg : Logger) : Logger :=
  {| lg_level := lg_level lg; lg_propagate := lg_propagate lg;
     lg_handlers := [] |}.

Definition addHandler (h : string) (lg : Logger) : Logger :=
  {| lg_level := lg_level lg; lg_propagate := lg_propagate lg;
     lg_handlers :=
       if bool_decide (h ∈ lg_handlers lg) then lg_handlers lg
       else lg_handlers lg ++ [h] |}.

(** Opening a file for appending creates it when it does not exist and
    keeps what it holds when it does. *)
Definition open_append (path : string) (fs : gmap string (list string))
  : gmap string (list string) :=
  match fs !! path with
  | Some _ => fs
  | None => <[path := []]> fs
  end.

(** [logging.FileHandler(path)] opens the file for appending at once; when
    the open fails, its error is raised and there is no handler. *)
Definition FileHandler {W} (path : string) : M (process W) string :=
  λ p, match p_open p path with
       | Some e => (Raise e, p)
       | None => (Return path, set_files (open_append path (p_files p)) p)
       end.

(** A logger whose own level is [NOTSET] takes the level of the root
    logger, which is left at its initial [WARNING]. *)
Definition getEffectiveLevel (lg : Logger) : Z :=
  if lg_level lg =? NOTSET then WARNING else lg_level lg.

Definition isEnabledFor (lg : Logger) (levelno : Z) : bool :=
  getEffectiveLevel lg <=? levelno.

(** A handler writes the record to its file. *)
Definition handler_emit (msg : string) (fs : gmap string (list string))
    (h : string) : gmap string (list string) :=
  <[h := (fs !!! h) ++ [msg]]> fs.

Definition callHandlers (lg : Logger) (msg : string)
    (fs : gmap string (list string)) : gmap string (list string) :=
  foldl (handler_emit msg) fs (lg_handlers lg).

(** [logger.debug(msg)] and its siblings: the record is handled when the
    logger is enabled for the method's level. *)
Definition Logger_log {W} (levelno : Z) (msg : string) (p : process W)
  : process W :=
  if isEnabledFor (p_logger p) levelno
  then set_files (callHandlers (p_logger p) msg (p_files p)) p
  else p.

(** What [getattr(logger, name)] finds.  The emission methods write a
    record at their level.  Every other attribute that a logger has is
    [Other]: what calling it with one string does is taken from the
    environment ([p_other]).  These are the remaining public attributes,
    among them [exception], whose record also carries the text of the
    exception being handled, and every name that begins with an underscore
    ([__init__], [__eq__], [_log], ...), none of which is told apart here.
    A name with no entry that does not begin with an underscore is not an
    attribute of the logger. *)
Inductive logger_attr :=
  | Emitter (levelno : Z)
  | Other.

#[global] Instance logger_attr_eq_dec : EqDecision logger_attr.
Proof. solve_decision. Defined.

Definition Logger_attrs : gmap string logger_attr :=
  list_to_map
    [("debug", Emitter DEBUG); ("info", Emitter INFO);
     ("warning", Emitter WARNING); ("warn", Emitter WARNING);
     ("error", Emitter ERROR);
     ("critical", Emitter CRITICAL); ("fatal", Emitter CRITICAL);
     ("exception", Other); ("log", Other); ("handle", Other);
     ("filter", Other); ("filters", Other); ("name", Other);
     ("level", Other); ("parent", Other); ("propagate", Other);
     ("handlers", Other); ("disabled", Other); ("manager", Other);
     ("root", Other)].

Definition private_name (name : string) : bool :=
  match name with
  | String c _ => bool_decide (c = "_"%char)
  | EmptyString => false
  end.

(** [getattr(logger, name)]: [None] when the logger has no such
    attribute. *)
Definition Logger_getattr (name : string) : option logger_attr :=
  match Logger_attrs !! name with
  | Some a => Some a
  | None => if private_name name then Some Other else None
  end.

(** [getattr(logger, name)(msg)], while the exception [pending] (if any)
    is being handled. *)
Definition Logger_call {W} (name : string) (pending : option exn)
    (msg : string) : M (process W) unit :=
  λ p, match Logger_getattr name with
       | None =>
           (Raise (mk_exn AttributeError
              ("'Logger' object has no attribute '" +:+ name +:+ "'")), p)
       | Some (Emitter levelno) => (Return tt, Logger_log levelno msg p)
       | Some Other =>
           let '(o, (lg, fs)) :=
             p_other p name pending msg (p_logger p, p_files p) in
           (o, set_files fs (set_logger lg p))
       end.

(** [level.lower()] for the [level] argument of [logged], a string or
    [None]. *)
Definition level_lower (level : option string) : outcome string :=
  match level with
  | Some s => Return (lower s)
  | None =>
      Raise (mk_exn AttributeError
               "'NoneType' object has no attribute 'lower'")
  end.

(** * decorators.py *)

Module decorators.

Section Logged.
Context {V : Type} `{!PyObject V} {W : Type}.

Definition levels : gset string :=
  {[ "debug"; "info"; "warning"; "error"; "fatal" ]}.

(** [level in levels]. *)
Definition level_in_levels (level : option string) : bool :=
  match level with
  | Some s => bool_decide (s ∈ levels)
  | None => false
  end.

(** [getattr(logging, level.upper())]. *)
Definition logging_level (level : option string) : outcome Z :=
  match level with
  | Some s =>
      match logging_constants !! upper s with
      | Some n => Return n
      | None =>
          Raise (mk_exn AttributeError
            ("module 'logging' has no attribute '" +:+ upper s +:+ "'"))
      end
  | None =>
      Raise (mk_exn AttributeError
               "'NoneType' object has no attribute 'upper'")
  end.

(** The text [log] holds before the call: the name and the arguments,
    positional ones by [repr], keyword ones as [k=repr(v)]. *)
Definition call_text (function : pyfunction V W V) (args : list V)
    (kwargs : list (string * V)) : string :=
  let log := "called: " +:+ f_name function +:+ "(" in
  log +:+ join ", " ((repr <$> args)
                     ++ ((λ kv, kv.1 +:+ "=" +:+ repr kv.2) <$> kwargs)).

(** The wrapper [logged(file, level)(function)] returns.  [result] and
    [exception] start as [None]; the [except] clause takes subclasses of
    [Exception] only; the [finally] block completes the line, emits it,
    and re-raises a caught exception; an error raised inside it replaces
    whatever was pending.  While the [finally] block runs, an exception
    that the [except] clause did not take is still being handled
    ([pending]). *)
Definition logged_wrapper (level : option string)
    (function : pyfunction V W V) (args : list V)
    (kwargs : list (string * V)) : M (process W) V :=
  λ p,
    let log := call_text function args kwargs in
    let '(o, u) := f_call function args kwargs (p_user p) in
    let p := set_user u p in
    let result := match o with Return r => str r | Raise _ => "None" end in
    let exception :=
      match o with
      | Raise err => if is_Exception (exn_type err) then Some err else None
      | Return _ => None
      end in
    let log :=
      log +:+ match exception with
              | None => ") -> " +:+ result
              | Some e => exn_type_repr e +:+ ": " +:+ exn_str e
              end in
    let pending :=
      match o with
      | Raise err => if is_Exception (exn_type err) then None else Some err
      | Return _ => None
      end in
    match level_lower level with
    | Raise e => (Raise e, p)
    | Return name =>
        match Logger_call name pending log p with
        | (Raise e, p) => (Raise e, p)
        | (Return _, p) =>
            match exception with
            | Some e => (Raise e, p)
            | None => (o, p)
            end
        end
    end.

(** The destination the handler is opened on. *)
Definition destination (file : option string) (p : process W) : string :=
  match file with
  | None => path_join (p_tempdir p) "logged.log"
  | Some f => f
  end.

Definition logged_decorator (file : option string) (level : option string)
    (function : pyfunction V W V)
  : M (process W) (list V → list (string * V) → M (process W) V) :=
  λ p,
    match (if level_in_levels level then logging_level level
           else Return INFO) with
    | Raise e => (Raise e, p)
    | Return n =>
        let p := set_logger (setLevel n (p_logger p)) p in
        let p := set_logger (set_propagate false (p_logger p)) p in
        match FileHandler (destination file p) p with
        | (Raise e, p) => (Raise e, p)
        | (Return handler, p) =>
            let p := set_logger (handlers_clear (p_logger p)) p in
            let p := set_logger (addHandler handler (p_logger p)) p in
            (Return (logged_wrapper level function), p)
        end
    end.

Definition logged (file : option string) (level : option string) :=
  logged_decorator file level.
End Logged.

Section Bounded.
Context {V W R : Type} `{!PyOrd R}.

(** The wrapper [bounded(minimum, maximum)(function)] returns, for
    bounds and results of a class with [<] and [>]. *)
Definition bounded_wrapper (minimum maximum : R)
    (function : pyfunction V W R) (args : list V)
    (kwargs : list (string * V)) : M W R :=
  result <- f_call function args kwargs ;;
  if py_lt result minimum then ret minimum
  else if py_gt result maximum then ret maximum
  else ret result.

Definition bounded (minimum maximum : R) (function : pyfunction V W R) :=
  bounded_wrapper minimum maximum function.
End Bounded.

Section StrictlyTyped.
Context {V : Type} `{!PyObject V} {W : Type}.

(** [annotations[name]]: a missing key raises [KeyError(name)], whose
    text is the [repr] of the key. *)
Definition annotations_getitem (annotations : gmap string pyclass)
    (name : string) : M W pyclass :=
  match annotations !! name with
  | Some t => ret t
  | None => raise (mk_exn KeyError ("'" +:+ name +:+ "'"))
  end.

(** The decoration-time loop over [arg_spec.args + arg_spec.kwonlyargs]. *)
Fixpoint assert_annotated (annotations : gmap string pyclass)
    (names : list string) : M W unit :=
  match names with
  | [] => ret tt
  | arg :: names' =>
      _ <- assert (bool_decide (is_Some (annotations !! arg)))
             ("missing type for parameter " +:+ dquote +:+ arg +:+ dquote) ;;
      assert_annotated annotations names'
  end.

(** [list(zip(arg_spec.args, args)) + list(kwargs.items())]. *)
Definition all_args (function : pyfunction V W V) (args : list V)
    (kwargs : list (string * V)) : list (string * V) :=
  zip (spec_args (f_argspec function)) args ++ kwargs.

(** The call-time loop over [all_args]. *)
Fixpoint check_args (annotations : gmap string pyclass)
    (l : list (string * V)) : M W unit :=
  match l with
  | [] => ret tt
  | (name, arg) :: l' =>
      t <- annotations_getitem annotations name ;;
      _ <- assert (isinstance arg t)
             ("expected argument " +:+ dquote +:+ name +:+ dquote
              +:+ " of " +:+ class_repr t
              +:+ " got " +:+ class_repr (type arg)) ;;
      check_args annotations l'
  end.

Definition strictly_typed_wrapper (function : pyfunction V W V)
    (args : list V) (kwargs : list (string * V)) : M W V :=
  let annotations := f_annotations function in
  _ <- check_args annotations (all_args function args kwargs) ;;
  result <- f_call function args kwargs ;;
  t <- annotations_getitem annotations "return" ;;
  _ <- assert (isinstance result t)
         ("expected return of " +:+ class_repr t
          +:+ " got " +:+ class_repr (type result)) ;;
  ret result.

Definition strictly_typed (function : pyfunction V W V)
  : M W (list V → list (string * V) → M W V) :=
  let annotations := f_annotations function in
  let arg_spec := f_argspec function in
  _ <- assert (bool_decide (is_Some (annotations !! "return")))
         "missing type for return value" ;;
  _ <- assert_annotated annotations
         (spec_args arg_spec ++ spec_kwonlyargs arg_spec) ;;
  ret (strictly_typed_wrapper function).
End StrictlyTyped.

Section Coroutine.
Context {V : Type} `{!PyObject V} {W St : Type}.

(** One resumption of a generator body: it suspends at a [yield] with a
    value, returns, or raises. *)
Inductive gen_step :=
  | Yielded (v : V) (s : St)
  | Returned (v : V)
  | Raised (e : exn).

(** A generator object: its frame ([None] once the body has finished)
    and its body, resumed from a frame with the value sent in ([None]
    stands for Python's [None], which is what [next] sends). *)
Record generator := {
  gi_frame : option St;
  gi_code : St → option V → W → gen_step * W;
}.

Definition set_frame (fr : option St) (g : generator) : generator :=
  {| gi_frame := fr; gi_code := gi_code g |}.

(** [StopIteration(v)] as a returning generator raises it: without
    arguments when the body returns [None]. *)
Definition stop_iteration (v : V) : exn :=
  mk_exn StopIteration
    (if bool_decide (type v = c_NoneType) then EmptyString else str v).

(** [next(generator)]: the value yielded, paired with the generator as
    this step leaves it.  A finished generator raises [StopIteration]; a
    [StopIteration] escaping the body becomes a [RuntimeError]. *)
Definition next (g : generator) : M W (V * generator) :=
  λ w,
    match gi_frame g with
    | None => (Raise (mk_exn StopIteration EmptyString), w)
    | Some s =>
        match gi_code g s None w with
        | (Yielded v s', w') => (Return (v, set_frame (Some s') g), w')
        | (Returned v, w') => (Raise (stop_iteration v), w')
        | (Raised e, w') =>
            (Raise (if bool_decide (exn_type e = StopIteration)
                    then mk_exn RuntimeError "generator raised StopIteration"
                    else e), w')
        end
    end.

Definition coroutine_wrapper (function : pyfunction V W generator)
    (args : list V) (kwargs : list (string * V)) : M W generator :=
  generator <- f_call function args kwargs ;;
  advanced <- next generator ;;
  ret advanced.2.

Definition coroutine (function : pyfunction V W generator) :=
  coroutine_wrapper function.
End Coroutine.

End decorators.

(** * mylog.py *)

Module mylog.

Section Logged.
Context {V : Type} `{!PyObject V} {W : Type}.

Definition levels : gset string :=
  {[ "debug"; "info"; "warning"; "error"; "fatal" ]}.

Definition level_in_levels (level : option string) : bool :=
  match level with
  | Some s => bool_decide (s ∈ levels)
  | None => false
  end.

Definition logging_level (level : option string) : outcome Z :=
  match level with
  | Some s =>
      match logging_constants !! upper s with
      | Some n => Return n
      | None =>
          Raise (mk_exn AttributeError
            ("module 'logging' has no attribute '" +:+ upper s +:+ "'"))
      end
  | None =>
      Raise (mk_exn AttributeError
               "'NoneType' object has no attribute 'upper'")
  end.

Definition call_text (function : pyfunction V W V) (args : list V)
    (kwargs : list (string * V)) : string :=
  let log := "called: " +:+ f_name function +:+ "(" in
  log +:+ join ", " ((repr <$> args)
                     ++ ((λ kv, kv.1 +:+ "=" +:+ repr kv.2) <$> kwargs)).

Definition logged_wrapper (level : option string)
    (function : pyfunction V W V) (args : list V)
    (kwargs : list (string * V)) : M (process W) V :=
  λ p,
    let log := call_text function args kwargs in
    let '(o, u) := f_call function args kwargs (p_user p) in
    let p := set_user u p in
    let result := match o with Return r => str r | Raise _ => "None" end in
    let exception :=
      match o with
      | Raise err => if is_Exception (exn_type err) then Some err else None
      | Return _ => None
      end in
    let log :=
      log +:+ match exception with
              | None => ") -> " +:+ result
              | Some e => exn_type_repr e +:+ ": " +:+ exn_str e
              end in
    let pending :=
      match o with
      | Raise err => if is_Exception (exn_type err) then None else Some err
      | Return _ => None
      end in
    match level_lower level with
    | Raise e => (Raise e, p)
    | Return name =>
        match Logger_call name pending log p with
        | (Raise e, p) => (Raise e, p)
        | (Return _, p) =>
            match exception with
            | Some e => (Raise e, p)
            | None => (o, p)
            end
        end
    end.

Definition destination (file : option string) (p : process W) : string :=
  match file with
  | None => path_join (p_tempdir p) "logged.log"
  | Some f => f
  end.

Definition logged_decorator (file : option string) (level : option string)
    (function : pyfunction V W V)
  : M (process W) (list V → list (string * V) → M (process W) V) :=
  λ p,
    match (if level_in_levels level then logging_level level
           else Return INFO) with
    | Raise e => (Raise e, p)
    | Return n =>
        let p := set_logger (setLevel n (p_logger p)) p in
        let p := set_logger (set_propagate false (p_logger p)) p in
        match FileHandler (destination file p) p with
        | (Raise e, p) => (Raise e, p)
        | (Return handler, p) =>
            let p := set_logger (handlers_clear (p_logger p)) p in
            let p := set_logger (addHandler handler (p_logger p)) p in
            (Return (logged_wrapper level function), p)
        end
    end.

Definition logged (file : option string) (level : option string) :=
  logged_decorator file level.
End Logged.

(** The script at the end of the file.  The two functions are given on the
    calls the script makes; any other argument list is a [TypeError] of
    the call itself. *)
Section Main.
Context {W : Type}.

Definition bad_call (name : string) : exn :=
  mk_exn TypeError (name +:+ "() got unexpected arguments").

Definition empty_argspec : FullArgSpec pyval :=
  {| spec_args := []; spec_varargs := None; spec_varkw := None;
     spec_defaults := []; spec_kwonlyargs := [];
     spec_kwonlydefaults := [] |}.

(** [def say_word(word='hello'): return word]. *)
Definition say_word : pyfunction pyval W pyval :=
  {| f_name := "say_word";
     f_annotations := ∅;
     f_argspec :=
       {| spec_args := ["word"]; spec_varargs := None; spec_varkw := None;
          spec_defaults := [VStr "hello"]; spec_kwonlyargs := [];
          spec_kwonlydefaults := [] |};
     f_call := λ args kwargs,
       match args, kwargs with
       | [], [] => ret (VStr "hello")
       | [word], [] => ret word
       | [], [(k, word)] =>
           if bool_decide (k = "word") then ret word
           else raise (bad_call "say_word")
       | _, _ => raise (bad_call "say_word")
       end |}.

(** [def divide(): return 1 / 0]. *)
Definition divide : pyfunction pyval W pyval :=
  {| f_name := "divide";
     f_annotations := ∅;
     f_argspec := empty_argspec;
     f_call := λ args kwargs,
       match args, kwargs with
       | [], [] => raise (mk_exn ZeroDivisionError "division by zero")
       | _, _ => raise (bad_call "divide")
       end |}.

(** Decorate both with [@logged()], then [say_word()] and [divide()]. *)
Definition main : M (process W) pyval :=
  say_word' <- logged None (Some "debug") say_word ;;
  divide' <- logged None (Some "debug") divide ;;
  _ <- say_word' [] [] ;;
  divide' [] [].
End Main.

End mylog.

(** * mynumber.py *)

Module mynumber.

Section Bounded.
Context {V W R : Type} `{!PyOrd R}.

Definition bounded_wrapper (minimum maximum : R)
    (function : pyfunction V W R) (args : list V)
    (kwargs : list (string * V)) : M W R :=
  result <- f_call function args kwargs ;;
  if py_lt result minimum then ret minimum
  else if py_gt result maximum then ret maximum
  else ret result.

Definition bounded (minimum maximum : R) (function : pyfunction V W R) :=
  bounded_wrapper minimum maximum function.
End Bounded.

End mynumber.

(** * A fresh process *)

(** The logger as [logging.getLogger] first creates it, no log file yet. *)
Definition fresh_logger : Logger :=
  {| lg_level := NOTSET; lg_propagate := true; lg_handlers := [] |}.

(** In the process of the examples every path can be opened; the
    attributes the model leaves open do nothing there (the examples do not
    reach them). *)
Definition fresh_process {W} (tmp : string) (u : W) : process W :=
  {| p_logger := fresh_logger; p_files := ∅; p_tempdir := tmp;
     p_open := λ _, None;
     p_other := λ _ _ _ s, (Return tt, s);
     p_user := u |}.

(** The same process with a path that cannot be opened. *)
Definition unopenable {W} (path : string) (e : exn) (p : process W)
  : process W :=
  {| p_logger := p_logger p; p_files := p_files p; p_tempdir := p_tempdir p;
     p_open := λ q, if bool_decide (q = path) then Some e else p_open p q;
     p_other := p_other p; p_user := p_user p |}.

(** The destination as the documentation of [logged] words it: the given
    file, or [logged.log] in the temporary directory when none is given. *)
Definition log_path (tmp : string) (file : option string) : string :=
  match file with
  | Some f => f
  | None => path_join tmp "logged.log"
  end.

(** A sequence of applications of the decorator, each [logged(file,
    level)(function)], attempted one after the other; one that raises is
    passed over, as by a caller that catches its error. *)
Fixpoint attempt_all {V} `{!PyObject V} {W}
    (ds : list (option string * option string * pyfunction V W V))
    (p : process W) : process W :=
  match ds with
  | [] => p
  | (file, level, function) :: ds' =>
      attempt_all ds' (decorators.logged file level function p).2
  end.

(** The destination of the last application in a sequence whose file can
    be opened, if there is one. *)
Fixpoint last_opened {W} (p : process W) (fs : list (option string))
  : option string :=
  match fs with
  | [] => None
  | file :: fs' =>
      match last_opened p fs' with
      | Some d => Some d
      | None =>
          match p_open p (log_path (p_tempdir p) file) with
          | None => Some (log_path (p_tempdir p) file)
          | Some _ => None
          end
      end
  end.

(** The line the logger wrapper hands to the logger, by the outcome of the
    wrapped call. *)
Definition logged_line {V} `{!PyObject V} {W} (function : pyfunction V W V)
    (args : list V) (kwargs : list (string * V)) (o : outcome V) : string :=
  decorators.call_text function args kwargs +:+
  match o with
  | Return r => ") -> " +:+ str r
  | Raise e =>
      if is_Exception (exn_type e)
      then exn_type_repr e +:+ ": " +:+ exn_str e
      else ") -> None"
  end.

(** The logger attribute the wrapper's emission resolves to: the lookup is
    by [level.lower()], and [None] has no [lower]. *)
Definition emission_attr (level : option string) : option logger_attr :=
  match level with
  | Some s => Logger_getattr (lower s)
  | None => None
  end.

(** The two errors of the call-time check of [strictly_typed]: the
    assertion message for an argument of the wrong type, and the [KeyError]
    of a name that the annotations do not hold. *)
Definition mismatch_error `{PyObject V} (name : string) (t : pyclass)
    (arg : V) : exn :=
  mk_exn AssertionError
    ("expected argument " +:+ dquote +:+ name +:+ dquote
     +:+ " of " +:+ class_repr t +:+ " got " +:+ class_repr (type arg)).

Definition key_error (name : string) : exn :=
  mk_exn KeyError ("'" +:+ name +:+ "'").

(** The assertion error for a result of the wrong type. *)
Definition return_error `{PyObject V} (t : pyclass) (result : V) : exn :=
  mk_exn AssertionError
    ("expected return of " +:+ class_repr t
     +:+ " got " +:+ class_repr (type result)).

(** What the wrapper of [strictly_typed] does once the arguments have
    passed: the call, then the check of the result against the return
    annotation [t]. *)
Definition checked_call `{PyObject V} {W} (function : pyfunction V W V)
    (t : pyclass) (args : list V) (kwargs : list (string * V)) : M W V :=
  λ w, match f_call function args kwargs w with
       | (Return result, w') =>
           if isinstance result t then (Return result, w')
           else (Raise (return_error t result), w')
       | (Raise e, w') => (Raise e, w')
       end.

(** The function with the annotation of one name set to [t]. *)
Definition with_annotation {V W R} (name : string) (t : pyclass)
    (function : pyfunction V W R) : pyfunction V W R :=
  {| f_name := f_name function;
     f_annotations := <[name := t]> (f_annotations function);
     f_argspec := f_argspec function;
     f_call := f_call function |}.

(** What the check does with one item. *)
Definition item_passes `{PyObject V} (annotations : gmap string pyclass)
    (item : string * V) : Prop :=
  ∃ t, annotations !! item.1 = Some t ∧ isinstance item.2 t = true.

Definition item_error `{PyObject V} (annotations : gmap string pyclass)
    (item : string * V) : exn :=
  match annotations !! item.1 with
  | Some t => mismatch_error item.1 t item.2
  | None => key_error item.1
  end.

(** The annotation Python attaches to the [i]-th positional argument of a
    call: that of the [i]-th name of [args], and past them that of the
    [*varargs] parameter. *)
Definition positional_annotation {V W R} (function : pyfunction V W R)
    (i : nat) : option pyclass :=
  match spec_args (f_argspec function) !! i with
  | Some name => f_annotations function !! name
  | None =>
      match spec_varargs (f_argspec function) with
      | Some rest => f_annotations function !! rest
      | None => None
      end
  end.

(** ** Sample functions *)

(** [def f(): return r], for a value [r]. *)
Definition constant {R} (r : R) : pyfunction pyval unit R :=
  {| f_name := "f"; f_annotations := ∅;
     f_argspec := mylog.empty_argspec;
     f_call := λ _ _, ret r |}.

Definition int_annotations (names : list string) : gmap string pyclass :=
  list_to_map ((λ n, (n, c_int)) <$> names).

(** Functions over a state that counts their invocations. *)
Definition invoked {A} (r : outcome A) : M nat A := λ n, (r, S n).

(** [def add(a: int, b: int) -> int: return a + b], called with two
    positional integers. *)
Definition add : pyfunction pyval nat pyval :=
  {| f_name := "add";
     f_annotations := int_annotations ["a"; "b"; "return"];
     f_argspec :=
       {| spec_args := ["a"; "b"]; spec_varargs := None; spec_varkw := None;
          spec_defaults := []; spec_kwonlyargs := [];
          spec_kwonlydefaults := [] |};
     f_call := λ args kwargs,
       match args, kwargs with
       | [VInt a; VInt b], [] => invoked (Return (VInt (a + b)))
       | _, _ => invoked (Raise (mylog.bad_call "add"))
       end |}.

(** [def first(a: int, *rest: int) -> int: return a]. *)
Definition first : pyfunction pyval nat pyval :=
  {| f_name := "first";
     f_annotations := int_annotations ["a"; "rest"; "return"];
     f_argspec :=
       {| spec_args := ["a"]; spec_varargs := Some "rest";
          spec_varkw := None; spec_defaults := []; spec_kwonlyargs := [];
          spec_kwonlydefaults := [] |};
     f_call := λ args kwargs,
       match args, kwargs with
       | a :: _, [] => invoked (Return a)
       | _, _ => invoked (Raise (mylog.bad_call "first"))
       end |}.

(** [def tagged(a: int, **tags) -> int: return a]. *)
Definition tagged : pyfunction pyval nat pyval :=
  {| f_name := "tagged";
     f_annotations := int_annotations ["a"; "return"];
     f_argspec :=
       {| spec_args := ["a"]; spec_varargs := None;
          spec_varkw := Some "tags"; spec_defaults := [];
          spec_kwonlyargs := []; spec_kwonlydefaults := [] |};
     f_call := λ args kwargs,
       match args with
       | [a] => invoked (Return a)
       | _ => invoked (Raise (mylog.bad_call "tagged"))
       end |}.

(** [def half(a: int, b) -> int], one parameter without annotation. *)
Definition half : pyfunction pyval nat pyval :=
  {| f_name := "half";
     f_annotations := int_annotations ["a"; "return"];
     f_argspec :=
       {| spec_args := ["a"; "b"]; spec_varargs := None; spec_varkw := None;
          spec_defaults := []; spec_kwonlyargs := [];
          spec_kwonlydefaults := [] |};
     f_call := λ _ _, invoked (Return (VInt 0)) |}.

(** The generator of [def count(n): while True: n = n + 1; yield n],
    whose frame holds [n]; and [def count(n)] itself, called with one
    integer. *)
Definition count_code (n : Z) (sent : option pyval) (w : nat)
  : decorators.gen_step (V := pyval) (St := Z) * nat :=
  (decorators.Yielded (VInt (n + 1)) (n + 1), S w).

Definition count : pyfunction pyval nat (decorators.generator (V := pyval)) :=
  {| f_name := "count"; f_annotations := ∅;
     f_argspec :=
       {| spec_args := ["n"]; spec_varargs := None; spec_varkw := None;
          spec_defaults := []; spec_kwonlyargs := [];
          spec_kwonlydefaults := [] |};
     f_call := λ args kwargs,
       match args, kwargs with
       | [VInt n], [] =>
           ret {| decorators.gi_frame := Some n;
                  decorators.gi_code := count_code |}
       | _, _ => raise (mylog.bad_call "count")
       end |}.

(** ** Decorated functions as function objects *)

(** [functools.wraps(function)(wrapper)] for a wrapper whose parameters
    are [*args, **kwargs], as those of every wrapper of [decorators.py]
    are: the wrapper takes over [__name__] and [__annotations__] of the
    function, while [inspect.getfullargspec], which does not follow
    [__wrapped__], reports the wrapper's own two catch-all parameters. *)
Definition wraps {V W W' R R'} (function : pyfunction V W R)
    (wrapper : list V → list (string * V) → M W' R') : pyfunction V W' R' :=
  {| f_name := f_name function;
     f_annotations := f_annotations function;
     f_argspec :=
       {| spec_args := []; spec_varargs := Some "args";
          spec_varkw := Some "kwargs"; spec_defaults := [];
          spec_kwonlyargs := []; spec_kwonlydefaults := [] |};
     f_call := wrapper |}.

(** [def interrupted(): raise KeyboardInterrupt()]. *)
Definition interrupted : pyfunction pyval unit pyval :=
  {| f_name := "interrupted"; f_annotations := ∅;
     f_argspec := mylog.empty_argspec;
     f_call := λ _ _, raise (mk_exn KeyboardInterrupt EmptyString) |}.

(** [def failing(): raise ValueError('no')], declared to return an
    integer. *)
Definition failing : pyfunction pyval unit Z :=
  {| f_name := "failing"; f_annotations := ∅;
     f_argspec := mylog.empty_argspec;
     f_call := λ _ _, raise (mk_exn ValueError "no") |}.

(** [def wrong(a: int) -> str: return a]. *)
Definition wrong : pyfunction pyval nat pyval :=
  {| f_name := "wrong";
     f_annotations := <["return" := c_str]> (int_annotations ["a"]);
     f_argspec :=
       {| spec_args := ["a"]; spec_varargs := None; spec_varkw := None;
          spec_defaults := []; spec_kwonlyargs := [];
          spec_kwonlydefaults := [] |};
     f_call := λ args kwargs,
       match args, kwargs with
       | [a], [] => invoked (Return a)
       | _, _ => invoked (Raise (mylog.bad_call "wrong"))
       end |}.

(** * Properties *)

(** ** The two copies of [logged] and of [bounded] agree *)

Lemma mylog_logged_eq {V} `{!PyObject V} {W} :
  @mylog.logged V _ W = @decorators.logged V _ W.
Proof. reflexivity. Qed.

Lemma mynumber_bounded_eq {V W R} `{!PyOrd R} :
  @mynumber.bounded V W R _ = @decorators.bounded V W R _.
Proof. reflexivity. Qed.

(** ** The logging channel *)

Section LoggingFacts.
Context {V : Type} `{!PyObject V} {W : Type}.
Implicit Types (p : process W) (lg : Logger) (function : pyfunction V W V).

(** The five recognised names: the threshold constant each selects, and
    the emission method each resolves to, have the same level. *)
Lemma levels_resolve (s : string) :
  s ∈ decorators.levels →
  ∃ n, decorators.logging_level (Some s) = Return n ∧ n ≠ NOTSET ∧
       level_lower (Some s) = Return s ∧
       Logger_getattr s = Some (Emitter n).
Proof.
  unfold decorators.levels. intros Hin.
  set_unfold in Hin.
  destruct_or!; subst s;
    eexists; (split; [vm_compute; reflexivity|]);
    (split; [vm_compute; discriminate|]); split; reflexivity.
Qed.

Lemma callHandlers_single lg msg fs d :
  lg_handlers lg = [d] →
  callHandlers lg msg fs = <[d := (fs !!! d) ++ [msg]]> fs.
Proof. intros Hh. unfold callHandlers. rewrite Hh. reflexivity. Qed.

Lemma Logger_log_enabled n msg p d :
  lg_handlers (p_logger p) = [d] →
  isEnabledFor (p_logger p) n = true →
  Logger_log n msg p
  = set_files (<[d := (p_files p !!! d) ++ [msg]]> (p_files p)) p.
Proof.
  intros Hh Hen. unfold Logger_log. rewrite Hen.
  by rewrite (callHandlers_single _ _ _ d).
Qed.

Lemma Logger_log_disabled n msg p :
  isEnabledFor (p_logger p) n = false → Logger_log n msg p = p.
Proof. intros Hen. unfold Logger_log. by rewrite Hen. Qed.

(** A file opened for appending keeps its lines, or is new and empty; no
    other file is touched. *)
Lemma open_append_lookup d (fs : gmap string (list string)) :
  open_append d fs !! d = Some (default [] (fs !! d)).
Proof.
  unfold open_append. destruct (fs !! d) as [ls|] eqn:E; [by rewrite E|].
  by rewrite lookup_insert_eq.
Qed.

Lemma open_append_lookup_ne d path (fs : gmap string (list string)) :
  path ≠ d → open_append d fs !! path = fs !! path.
Proof.
  intros Hne. unfold open_append. destruct (fs !! d) as [ls|] eqn:E; [done|].
  by rewrite lookup_insert_ne.
Qed.

Lemma destination_log_path file p :
  decorators.destination file p = log_path (p_tempdir p) file.
Proof. by destruct file. Qed.

(** What an application of the decorator does: the threshold [n] and
    [propagate] are set first; then the destination is opened, and either
    the open fails and its error is raised with the handlers as they were,
    or the destination becomes the one handler. *)
Lemma logged_decorator_state file level function p :
  ∃ n,
    (if decorators.level_in_levels level
     then decorators.logging_level level else Return INFO) = Return n ∧
    n ≠ NOTSET ∧
    decorators.logged file level function p
    = match p_open p (log_path (p_tempdir p) file) with
      | Some e =>
          (Raise e,
           {| p_logger := {| lg_level := n; lg_propagate := false;
                             lg_handlers := lg_handlers (p_logger p) |};
              p_files := p_files p;
              p_tempdir := p_tempdir p; p_open := p_open p;
              p_other := p_other p; p_user := p_user p |})
      | None =>
          (Return (decorators.logged_wrapper level function),
           {| p_logger := {| lg_level := n; lg_propagate := false;
                             lg_handlers := [log_path (p_tempdir p) file] |};
              p_files := open_append (log_path (p_tempdir p) file) (p_files p);
              p_tempdir := p_tempdir p; p_open := p_open p;
              p_other := p_other p; p_user := p_user p |})
      end.
Proof.
  assert (∃ n, (if decorators.level_in_levels level
                then decorators.logging_level level else Return INFO)
               = Return n ∧ n ≠ NOTSET) as (n & Hn & Hnz).
  { destruct (decorators.level_in_levels level) eqn:Hin.
    - destruct level as [s|]; [|discriminate].
      apply bool_decide_eq_true in Hin.
      destruct (levels_resolve s Hin) as (n & Hn & Hnz & _). by exists n.
    - by exists INFO. }
  exists n. split; [exact Hn|]. split; [exact Hnz|].
  unfold decorators.logged, decorators.logged_decorator. rewrite Hn.
  unfold FileHandler. rewrite destination_log_path.
  cbn [set_logger p_open p_tempdir].
  by destruct (p_open p (log_path (p_tempdir p) file)).
Qed.

(** The emission methods of the model. *)
Lemma Logger_getattr_emitter name n :
  Logger_getattr name = Some (Emitter n) →
  name ∈ ["debug"; "info"; "warning"; "warn"; "error"; "critical"; "fatal"].
Proof.
  unfold Logger_getattr.
  destruct (Logger_attrs !! name) as [a|] eqn:E;
    [|by destruct (private_name name)].
  intros [= ->]. unfold Logger_attrs in E.
  apply elem_of_list_to_map_2 in E.
  set_unfold in E. set_unfold.
  destruct_or!; simplify_eq; auto 10.
Qed.

(** The application whose destination can be opened. *)
Lemma logged_opened file level function p :
  p_open p (decorators.destination file p) = None →
  ∃ n,
    (if decorators.level_in_levels level
     then decorators.logging_level level else Return INFO) = Return n ∧
    n ≠ NOTSET ∧
    decorators.logged file level function p
    = (Return (decorators.logged_wrapper level function),
       {| p_logger := {| lg_level := n; lg_propagate := false;
                         lg_handlers := [decorators.destination file p] |};
          p_files := open_append (decorators.destination file p) (p_files p);
          p_tempdir := p_tempdir p; p_open := p_open p;
          p_other := p_other p; p_user := p_user p |}).
Proof.
  intros Hopen.
  destruct (logged_decorator_state file level function p)
    as (n & Hn & Hnz & Heq).
  exists n. split; [exact Hn|]. split; [exact Hnz|].
  rewrite destination_log_path in *. by rewrite Heq, Hopen.
Qed.

(** The wrapper, run in a state where its emission method resolves. *)
Lemma logged_wrapper_emitter level name n function args kwargs p :
  level_lower level = Return name →
  Logger_getattr name = Some (Emitter n) →
  decorators.logged_wrapper level function args kwargs p
  = let '(o, u) := f_call function args kwargs (p_user p) in
    (o, Logger_log n (logged_line function args kwargs o) (set_user u p)).
Proof.
  intros Hl Ha. unfold decorators.logged_wrapper, logged_line.
  destruct (f_call function args kwargs (p_user p)) as [o u].
  rewrite Hl. unfold Logger_call. rewrite Ha.
  destruct o as [r|e]; [reflexivity|].
  destruct (is_Exception (exn_type e)); reflexivity.
Qed.

(** The wrapper, run with a level whose lower-case name is no attribute
    of the logger: the lookup error is what the caller gets. *)
Lemma logged_wrapper_unresolved level function args kwargs p :
  emission_attr level = None →
  ∃ e, exn_type e = AttributeError ∧
    decorators.logged_wrapper level function args kwargs p
    = (Raise e,
       set_user (f_call function args kwargs (p_user p)).2 p).
Proof.
  intros Hl. unfold decorators.logged_wrapper.
  destruct (f_call function args kwargs (p_user p)) as [o u].
  destruct level as [s|]; unfold level_lower.
  - unfold Logger_call. cbn [emission_attr] in Hl. rewrite Hl.
    eexists. split; [|reflexivity]. reflexivity.
  - eexists. split; [|reflexivity]. reflexivity.
Qed.

(** A call of a logger attribute that the model spells out leaves the
    logger as it is and changes the files by at most one line on the
    current handler. *)
Lemma Logger_call_files name pending msg p d :
  Logger_getattr name ≠ Some Other →
  lg_handlers (p_logger p) = [d] →
  let p' := (Logger_call name pending msg p).2 in
  p_logger p' = p_logger p ∧ p_user p' = p_user p ∧
  (p_files p' = p_files p ∨
   p_files p' = <[d := (p_files p !!! d) ++ [msg]]> (p_files p)).
Proof.
  intros Hno Hh. unfold Logger_call.
  destruct (Logger_getattr name) as [[n|]|]; [|done|cbn; auto].
  unfold Logger_log.
  destruct (isEnabledFor (p_logger p) n); cbn [snd]; auto.
  rewrite (callHandlers_single _ _ _ d Hh). auto.
Qed.

(** Whatever such a wrapper does, only the file of the current handler
    can change, and by at most the one line. *)
Lemma logged_wrapper_files level function args kwargs p d :
  emission_attr level ≠ Some Other →
  lg_handlers (p_logger p) = [d] →
  let p' := (decorators.logged_wrapper level function args kwargs p).2 in
  p_logger p' = p_logger p ∧
  (p_files p' = p_files p ∨
   ∃ line, p_files p' = <[d := (p_files p !!! d) ++ [line]]> (p_files p)).
Proof.
  intros Hno Hh. unfold decorators.logged_wrapper.
  destruct (f_call function args kwargs (p_user p)) as [o u].
  destruct level as [s|]; unfold level_lower; [|cbn; auto].
  match goal with
  | |- context [Logger_call (lower s) ?pd ?l ?q] =>
      pose proof (Logger_call_files (lower s) pd l q d Hno Hh)
        as (Hlg & _ & Hfs);
      destruct (Logger_call (lower s) pd l q) as [[[]|e] p'] eqn:E
  end; cbn [snd] in *.
  - destruct o as [r|e]; [|destruct (is_Exception (exn_type e))]; cbn [snd];
      (split; [done|]);
      (destruct Hfs as [->| ->]; [by left|right; by eexists]).
  - split; [done|].
    destruct Hfs as [->| ->]; [by left|right; by eexists].
Qed.

(** A wrapper whose emission method resolves, called on a channel with one
    handler and a threshold of its own: the outcome is the function's, and
    the line is appended when the method's level reaches the threshold. *)
Lemma logged_wrapper_configured level name n function args kwargs p d :
  level_lower level = Return name →
  Logger_getattr name = Some (Emitter n) →
  lg_handlers (p_logger p) = [d] →
  lg_level (p_logger p) ≠ NOTSET →
  decorators.logged_wrapper level function args kwargs p
  = let '(o, u) := f_call function args kwargs (p_user p) in
    (o, if lg_level (p_logger p) <=? n
        then set_files
               (<[d := (p_files p !!! d)
                       ++ [logged_line function args kwargs o]]> (p_files p))
               (set_user u p)
        else set_user u p).
Proof.
  intros Hl Ha Hh Hlv.
  rewrite (logged_wrapper_emitter _ _ _ _ _ _ _ Hl Ha).
  destruct (f_call function args kwargs (p_user p)) as [o u]. f_equal.
  assert (isEnabledFor (p_logger (set_user u p)) n
          = (lg_level (p_logger p) <=? n)) as Hen.
  { unfold isEnabledFor, getEffectiveLevel. cbn [set_user p_logger].
    destruct (lg_level (p_logger p) =? NOTSET) eqn:E; [|done].
    apply Z.eqb_eq in E. contradiction. }
  destruct (lg_level (p_logger p) <=? n) eqn:E.
  - by rewrite (Logger_log_enabled _ _ _ d).
  - by rewrite Logger_log_disabled.
Qed.

(** An application of the decorator changes nothing of the environment. *)
Lemma logged_environment file level function p :
  let p' := (decorators.logged file level function p).2 in
  p_tempdir p' = p_tempdir p ∧ p_open p' = p_open p ∧
  p_other p' = p_other p ∧ p_user p' = p_user p.
Proof.
  destruct (logged_decorator_state file level function p) as (n & _ & _ & ->).
  by destruct (p_open p (log_path (p_tempdir p) file)).
Qed.
End LoggingFacts.

(** ** Call Logger *)

Section LoggedClaims.
Context {V : Type} `{!PyObject V} {W : Type}.
Implicit Types (p : process W) (function : pyfunction V W V).

(** What a successful application tells. *)
Lemma logged_inv file level function p0 wrapper p1 :
  decorators.logged file level function p0 = (Return wrapper, p1) →
  ∃ n,
    (if decorators.level_in_levels level
     then decorators.logging_level level else Return INFO) = Return n ∧
    n ≠ NOTSET ∧
    p_open p0 (log_path (p_tempdir p0) file) = None ∧
    wrapper = decorators.logged_wrapper level function ∧
    p1 = {| p_logger := {| lg_level := n; lg_propagate := false;
                           lg_handlers := [log_path (p_tempdir p0) file] |};
            p_files := open_append (log_path (p_tempdir p0) file) (p_files p0);
            p_tempdir := p_tempdir p0; p_open := p_open p0;
            p_other := p_other p0; p_user := p_user p0 |}.
Proof.
  intros Hdec.
  destruct (logged_decorator_state file level function p0)
    as (n & Hn & Hnz & Heq).
  rewrite Heq in Hdec.
  destruct (p_open p0 (log_path (p_tempdir p0) file)); [discriminate|].
  injection Hdec as <- <-. by exists n.
Qed.

Lemma last_opened_env (p p' : process W) fs :
  p_tempdir p' = p_tempdir p → p_open p' = p_open p →
  last_opened p' fs = last_opened p fs.
Proof.
  intros Ht Ho. induction fs as [|file fs IH]; [done|].
  cbn [last_opened]. by rewrite IH, Ht, Ho.
Qed.

(** After a sequence of applications the handlers are the destination of
    the last one whose file could be opened. *)
Lemma attempt_all_handlers
    (ds : list (option string * option string * pyfunction V W V)) p :
  lg_handlers (p_logger (attempt_all ds p))
  = match last_opened p (ds.*1.*1) with
    | Some d => [d]
    | None => lg_handlers (p_logger p)
    end.
Proof.
  revert p. induction ds as [|[[file level] function] ds IH]; intros p.
  - reflexivity.
  - cbn [attempt_all fmap list_fmap fst last_opened].
    rewrite IH.
    destruct (logged_environment file level function p) as (Ht & Ho & _ & _).
    rewrite (last_opened_env p _ _ Ht Ho).
    destruct (last_opened p (ds.*1.*1)) as [d|]; [done|].
    destruct (logged_decorator_state file level function p)
      as (n & _ & _ & ->).
    by destruct (p_open p (log_path (p_tempdir p) file)).
Qed.

(** C1, as the code has it -- For a function that does not itself use the
    logger, and each of the five level names, the wrapper made by an
    application of [logged] (of either copy) that succeeded has the outcome
    of the function whenever it is called: the same value when the function
    returns, the identical exception when it raises.  The record
    describing the call (one line, unless the text of the result itself
    holds a line break) is appended to the file of the logger's handler
    exactly when the level of the wrapper is at least the threshold the
    logger has at that moment, and one record only; otherwise nothing is
    written.  Right after the wrapper's own application the threshold is
    the wrapper's level and the handler is the destination of that
    application. *)
Theorem logged_transparent file (level : string) function p0 wrapper p1 :
  level ∈ decorators.levels →
  decorators.logged file (Some level) function p0 = (Return wrapper, p1) →
  mylog.logged file (Some level) function p0 = (Return wrapper, p1) ∧
  ∃ n,
    decorators.logging_level (Some level) = Return n ∧
    n ≠ NOTSET ∧
    lg_level (p_logger p1) = n ∧
    lg_handlers (p_logger p1) = [log_path (p_tempdir p0) file] ∧
    ∀ p d args kwargs,
      lg_handlers (p_logger p) = [d] →
      lg_level (p_logger p) ≠ NOTSET →
      let '(o, u') := f_call function args kwargs (p_user p) in
      wrapper args kwargs p
      = (o, if lg_level (p_logger p) <=? n
            then set_files
                   (<[d := (p_files p !!! d)
                           ++ [logged_line function args kwargs o]]>
                      (p_files p))
                   (set_user u' p)
            else set_user u' p).
Proof.
  intros Hin Hdec. split; [exact Hdec|].
  destruct (levels_resolve level Hin) as (n & Hn & Hnz & Hlow & Hattr).
  destruct (logged_inv _ _ _ _ _ _ Hdec) as (n' & Hn' & _ & _ & -> & ->).
  unfold decorators.level_in_levels in Hn'.
  rewrite bool_decide_eq_true_2 in Hn' by exact Hin.
  rewrite Hn in Hn'. injection Hn' as <-.
  exists n. do 4 (split; [done|]).
  intros p d args kwargs Hh Hlv.
  rewrite (logged_wrapper_configured _ _ _ _ _ _ _ d Hlow Hattr Hh Hlv).
  by destruct (f_call function args kwargs (p_user p)) as [o u'].
Qed.

(** C8, as the code has it -- An application of the decorator (of either
    copy) first sets threshold and [propagate] and then opens its
    destination: the given path, or [logged.log] in the temporary
    directory.  When the open succeeds, that destination becomes the one
    handler of the shared logger; when it fails, the application raises
    the error of the open and the handlers stay as they were.  So after
    any sequence of applications the handlers are the destination of the
    last application whose file could be opened (and those from before
    when there was none); and a later call of a wrapper on that channel,
    whose level names an emission method or no attribute at all, leaves
    the handler in place and every other file as it is: a line it writes
    is appended to that destination. *)
Theorem logged_replaces_handlers
    (ds : list (option string * option string * pyfunction V W V)) p0 :
  (∀ file level function p,
     let d := log_path (p_tempdir p) file in
     mylog.logged file level function p
     = decorators.logged file level function p ∧
     match p_open p d with
     | None =>
         ∃ wrapper p',
           decorators.logged file level function p = (Return wrapper, p') ∧
           lg_handlers (p_logger p') = [d]
     | Some e =>
         ∃ p',
           decorators.logged file level function p = (Raise e, p') ∧
           lg_handlers (p_logger p') = lg_handlers (p_logger p)
     end) ∧
  let p := attempt_all ds p0 in
  lg_handlers (p_logger p)
  = match last_opened p0 (ds.*1.*1) with
    | Some d => [d]
    | None => lg_handlers (p_logger p0)
    end ∧
  ∀ d level' function' args kwargs u,
    last_opened p0 (ds.*1.*1) = Some d →
    emission_attr level' ≠ Some Other →
    let p' := (decorators.logged_wrapper level' function' args kwargs
                 (set_user u p)).2 in
    lg_handlers (p_logger p') = [d] ∧
    (∀ path, path ≠ d → p_files p' !! path = p_files p !! path) ∧
    (p_files p' = p_files p ∨
     ∃ line, p_files p' = <[d := (p_files p !!! d) ++ [line]]> (p_files p)).
Proof.
  split.
  { intros file level function p d. split; [reflexivity|].
    destruct (logged_decorator_state file level function p)
      as (n & _ & _ & ->). fold d.
    destruct (p_open p d); eexists; [|eexists]; by split. }
  intros p. split; [apply attempt_all_handlers|].
  intros d level' function' args kwargs u Hlast Hno.
  assert (lg_handlers (p_logger (set_user u p)) = [d]) as Hh.
  { cbn [set_user p_logger]. subst p.
    by rewrite attempt_all_handlers, Hlast. }
  destruct (logged_wrapper_files level' function' args kwargs
              (set_user u p) d Hno Hh) as [Hlg Hfs].
  cbn zeta. split; [by rewrite Hlg|].
  split; [|exact Hfs].
  intros path Hne.
  destruct Hfs as [->|[line ->]]; [done|].
  by rewrite lookup_insert_ne.
Qed.

(** C6, as the code has it -- When the level given to the Call Logger is
    not one of the five recognised names, a successful application sets
    the threshold of the shared logger to INFO.  Each call then looks up
    the emission method under the lower-cased level; when the logger has
    no attribute of that name (or the level is [None], which has no
    [lower]), the call raises an [AttributeError] whatever the wrapped
    function did -- its value or its own exception is lost -- and no
    line is written. *)
Theorem logged_unrecognised_level file level function p0 wrapper p1 :
  decorators.level_in_levels level = false →
  emission_attr level = None →
  decorators.logged file level function p0 = (Return wrapper, p1) →
  lg_level (p_logger p1) = INFO ∧
  ∀ p args kwargs,
    ∃ e, exn_type e = AttributeError ∧
      wrapper args kwargs p
      = (Raise e, set_user (f_call function args kwargs (p_user p)).2 p).
Proof.
  intros Hin Hattr Hdec.
  destruct (logged_inv _ _ _ _ _ _ Hdec) as (n & Hn & _ & _ & -> & ->).
  rewrite Hin in Hn. injection Hn as <-.
  split; [reflexivity|].
  intros p args kwargs.
  by apply logged_wrapper_unresolved.
Qed.
End LoggedClaims.

(** C1, as stated, fails -- [say_word] is decorated at level [debug] and
    then [divide] at level [error], which raises the threshold of the
    shared logger; [say_word()] still returns 'hello', but no line is
    appended: both log files stay empty. *)
Lemma logged_line_dropped_by_later_threshold :
  match decorators.logged (Some "a.log") (Some "debug") (@mylog.say_word unit)
          (fresh_process "/tmp" tt) with
  | (Return say_word', p1) =>
      match decorators.logged (Some "b.log") (Some "error")
              (@mylog.divide unit) p1 with
      | (Return _, p2) =>
          say_word' [] [] p2 = (Return (VStr "hello"), p2) ∧
          p_files p2 !! "a.log" = Some [] ∧
          p_files p2 !! "b.log" = Some []
      | (Raise _, _) => False
      end
  | (Raise _, _) => False
  end.
Proof. vm_compute. repeat split; reflexivity. Qed.

Lemma logged_transparent_witness :
  ∃ wrapper p1,
    "debug" ∈ decorators.levels ∧
    decorators.logged None (Some "debug") (@mylog.say_word unit)
      (fresh_process "/tmp" tt) = (Return wrapper, p1) ∧
    mylog.logged None (Some "debug") (@mylog.say_word unit)
      (fresh_process "/tmp" tt) = (Return wrapper, p1) ∧
    ∃ n,
      decorators.logging_level (Some "debug") = Return n ∧
      n ≠ NOTSET ∧
      lg_level (p_logger p1) = n ∧
      lg_handlers (p_logger p1) = [log_path "/tmp" None] ∧
      ∀ p d args kwargs,
        lg_handlers (p_logger p) = [d] →
        lg_level (p_logger p) ≠ NOTSET →
        let '(o, u') := f_call (@mylog.say_word unit) args kwargs (p_user p) in
        wrapper args kwargs p
        = (o, if lg_level (p_logger p) <=? n
              then set_files
                     (<[d := (p_files p !!! d)
                             ++ [logged_line (@mylog.say_word unit)
                                   args kwargs o]]>
                        (p_files p))
                     (set_user u' p)
              else set_user u' p).
Proof.
  assert ("debug" ∈ decorators.levels) as Hin
    by (unfold decorators.levels; set_solver).
  eexists _, _. split; [exact Hin|].
  refine (let Hdec := eq_refl in
          conj Hdec
            (logged_transparent None "debug" mylog.say_word
               (fresh_process "/tmp" tt) _ _ Hin Hdec)).
Defined.

(** C8, as stated, fails -- [say_word] is decorated at level [error] on
    [a.log]; the next application, on a path whose directory is missing,
    raises the error of the open and replaces nothing: the handler is
    still [a.log] (while the threshold is already that of the failed
    application), and the next line goes to that earlier destination. *)
Lemma logged_failed_open_keeps_handler :
  let missing := mk_exn (UserError "FileNotFoundError")
                   "[Errno 2] No such file or directory: '/missing/b.log'" in
  match decorators.logged (Some "a.log") (Some "error") (@mylog.say_word unit)
          (unopenable "/missing/b.log" missing (fresh_process "/tmp" tt)) with
  | (Return say_word', p1) =>
      match decorators.logged (Some "/missing/b.log") (Some "debug")
              (@mylog.divide unit) p1 with
      | (Raise e, p2) =>
          e = missing ∧
          lg_handlers (p_logger p2) = ["a.log"] ∧
          lg_level (p_logger p2) = DEBUG ∧
          p_files (say_word' [] [] p2).2 !! "a.log"
          = Some ["called: say_word() -> hello"] ∧
          p_files (say_word' [] [] p2).2 !! "/missing/b.log" = None
      | (Return _, _) => False
      end
  | (Raise _, _) => False
  end.
Proof. vm_compute. repeat split; reflexivity. Qed.

Lemma logged_unrecognised_level_witness :
  ∃ wrapper p1,
    decorators.level_in_levels (Some "verbose") = false ∧
    emission_attr (Some "verbose") = None ∧
    decorators.logged None (Some "verbose") (@mylog.say_word unit)
      (fresh_process "/tmp" tt) = (Return wrapper, p1) ∧
    lg_level (p_logger p1) = INFO ∧
    ∀ (p : process unit) args kwargs,
      ∃ e, exn_type e = AttributeError ∧
        wrapper args kwargs p
        = (Raise e,
           set_user (f_call (@mylog.say_word unit) args kwargs (p_user p)).2
             p).
Proof.
  assert (decorators.level_in_levels (Some "verbose") = false) as Hin
    by (vm_compute; reflexivity).
  assert (emission_attr (Some "verbose") = None) as Hattr
    by (vm_compute; reflexivity).
  eexists _, _. split; [exact Hin|]. split; [exact Hattr|].
  refine (let Hdec := eq_refl in
          conj Hdec
            (logged_unrecognised_level None (Some "verbose") mylog.say_word
               (fresh_process "/tmp" tt) _ _ Hin Hattr Hdec)).
Defined.

(** C6, as stated, fails -- the lookup is not by the literal level: the
    level 'Debug' is none of the five names, and neither the logger nor
    the logging module has an attribute of that name, yet the wrapper
    resolves [debug] and returns the function's value without any error
    (the line, below the INFO threshold, is dropped). *)
Lemma logged_level_is_lowercased :
  decorators.level_in_levels (Some "Debug") = false ∧
  Logger_getattr "Debug" = None ∧
  logging_constants !! "Debug" = None ∧
  match decorators.logged None (Some "Debug") (@mylog.say_word unit)
          (fresh_process "/tmp" tt) with
  | (Return wrapper, p1) =>
      lg_level (p_logger p1) = INFO ∧
      wrapper [] [] p1 = (Return (VStr "hello"), p1)
  | (Raise _, _) => False
  end.
Proof. vm_compute. repeat split; reflexivity. Qed.

(** C7 -- The line of a failed call has no closing parenthesis.  The
    script of [mylog.py], run in a fresh process, ends in the
    [ZeroDivisionError] of [divide()] and leaves two lines in the default
    log file: the one of [say_word()] closes the argument list before the
    arrow, the one of [divide()] runs from the opening parenthesis straight
    into the error type. *)
Theorem logged_failure_line_unclosed :
  let '(o, p) := @mylog.main unit (fresh_process "/tmp" tt) in
  o = Raise (mk_exn ZeroDivisionError "division by zero") ∧
  p_files p !! "/tmp/logged.log"
  = Some ["called: say_word() -> hello";
          "called: divide(<class 'ZeroDivisionError'>: division by zero"] ∧
  p_files p !! "/tmp/logged.log"
  ≠ Some ["called: say_word() -> hello";
          "called: divide() <class 'ZeroDivisionError'>: division by zero"] ∧
  p_files p !! "/tmp/logged.log"
  ≠ Some ["called: say_word() -> hello";
          "called: divide()<class 'ZeroDivisionError'>: division by zero"].
Proof. vm_compute. repeat split; congruence. Qed.

(** ** Bounded Result Clamp *)

Section NumberOrder.
Implicit Types (a b c : number).

Lemma num_lt_not_nan a b : num_lt a b = true → a ≠ NaN ∧ b ≠ NaN.
Proof. by destruct a, b. Qed.

Lemma num_le_not_nan a b : num_le a b = true → a ≠ NaN ∧ b ≠ NaN.
Proof. by destruct a, b. Qed.

Lemma num_lt_irrefl a : num_lt a a = false.
Proof.
  destruct a as [q| | |]; try done.
  apply bool_decide_eq_false. intros Hlt. by apply (Qclt_not_eq _ _ Hlt).
Qed.

(** Apart from NaN the order is total: [a < b] fails exactly when
    [b <= a]. *)
Lemma num_lt_false a b :
  a ≠ NaN → b ≠ NaN → num_lt a b = false ↔ num_le b a = true.
Proof.
  intros Ha Hb. destruct a as [p| | |], b as [q| | |]; try done.
  cbn [num_lt num_le].
  rewrite bool_decide_eq_false, bool_decide_eq_true.
  split; [apply Qcnot_lt_le|apply Qcle_not_lt].
Qed.

Lemma num_lt_le a b : num_lt a b = true → num_le a b = true.
Proof.
  destruct a as [p| | |], b as [q| | |]; try done.
  cbn [num_lt num_le]. rewrite !bool_decide_eq_true. apply Qclt_le_weak.
Qed.

Lemma num_le_refl a : a ≠ NaN → num_le a a = true.
Proof.
  destruct a as [p| | |]; try done. intros _.
  apply bool_decide_eq_true. apply Qcle_refl.
Qed.

Lemma num_le_trans a b c :
  num_le a b = true → num_le b c = true → num_le a c = true.
Proof.
  destruct a as [p| | |], b as [q| | |], c as [r| | |]; try done.
  cbn [num_le]. rewrite !bool_decide_eq_true. apply Qcle_trans.
Qed.

Lemma num_le_lt_trans a b c :
  num_le a b = true → num_lt b c = true → num_lt a c = true.
Proof.
  destruct a as [p| | |], b as [q| | |], c as [r| | |]; try done.
  cbn [num_le num_lt]. rewrite !bool_decide_eq_true. apply Qcle_lt_trans.
Qed.

Lemma num_lt_le_trans a b c :
  num_lt a b = true → num_le b c = true → num_lt a c = true.
Proof.
  destruct a as [p| | |], b as [q| | |], c as [r| | |]; try done.
  cbn [num_le num_lt]. rewrite !bool_decide_eq_true. apply Qclt_le_trans.
Qed.

Lemma num_lt_asym a b : num_lt a b = true → num_lt b a = false.
Proof.
  destruct a as [p| | |], b as [q| | |]; try done.
  cbn [num_lt]. rewrite bool_decide_eq_true, bool_decide_eq_false.
  intros H1 H2. by apply (Qclt_not_eq _ _ (Qclt_trans _ _ _ H1 H2)).
Qed.

Lemma num_le_antisym a b :
  num_le a b = true → num_le b a = true → a = b.
Proof.
  destruct a as [p| | |], b as [q| | |]; try done.
  cbn [num_le]. rewrite !bool_decide_eq_true.
  intros H1 H2. f_equal. by apply Qcle_antisym.
Qed.
End NumberOrder.

Section BoundedClaims.
Context {V W : Type}.

(** A raising function is not clamped: its exception passes through. *)
Lemma bounded_raises {R} `{!PyOrd R} (minimum maximum : R)
    (function : pyfunction V W R) args kwargs w e w' :
  f_call function args kwargs w = (Raise e, w') →
  decorators.bounded minimum maximum function args kwargs w = (Raise e, w').
Proof.
  intros Hf. unfold decorators.bounded, decorators.bounded_wrapper, bind.
  by rewrite Hf.
Qed.

(** C2, as the code has it -- For numbers [minimum <= maximum] and a
    function that returns a number, the wrapper of [bounded] (in
    [decorators.py] and in [mynumber.py]) returns a number and keeps the
    function's effects.  When the function's result is not NaN, the number
    returned is within the bounds: the result itself when that is within
    them, [minimum] when it is below, and [maximum] when it is above.
    When the result is NaN, which compares false with everything, the
    wrapper returns NaN. *)
Theorem bounded_clamps (minimum maximum : number)
    (function : pyfunction V W number) args kwargs w result w' :
  num_le minimum maximum = true →
  f_call function args kwargs w = (Return result, w') →
  ∃ r',
    decorators.bounded minimum maximum function args kwargs w
    = (Return r', w') ∧
    mynumber.bounded minimum maximum function args kwargs w
    = (Return r', w') ∧
    (result ≠ NaN →
     num_le minimum r' = true ∧ num_le r' maximum = true ∧
     (num_le minimum result = true → num_le result maximum = true →
      r' = result) ∧
     (num_lt result minimum = true → r' = minimum) ∧
     (num_lt maximum result = true → r' = maximum)) ∧
    (result = NaN → r' = NaN).
Proof.
  intros Hle Hf.
  destruct (num_le_not_nan _ _ Hle) as [Hmin Hmax].
  unfold mynumber.bounded, mynumber.bounded_wrapper,
    decorators.bounded, decorators.bounded_wrapper, bind.
  rewrite Hf. cbn [py_lt py_gt number_ord].
  destruct (num_lt result minimum) eqn:Hlo.
  - exists minimum. unfold ret. do 2 (split; [reflexivity|]). split.
    + intros Hr. split; [by apply num_le_refl|]. split; [exact Hle|].
      split; [|split; [done|]].
      * intros H1 _. apply (num_lt_false _ _ Hr Hmin) in H1. congruence.
      * intros Hhi.
        pose proof (num_lt_asym _ _ (num_le_lt_trans _ _ _ Hle Hhi)).
        congruence.
    + intros ->. by destruct minimum.
  - destruct (num_lt maximum result) eqn:Hhi.
    + exists maximum. unfold ret. do 2 (split; [reflexivity|]). split.
      * intros Hr. split; [exact Hle|]. split; [by apply num_le_refl|].
        split; [|done].
        intros _ H2. apply (num_lt_false _ _ Hmax Hr) in H2. congruence.
      * intros ->. by destruct maximum.
    + exists result. unfold ret. do 2 (split; [reflexivity|]).
      split; [|done].
      intros Hr. split; [by apply (num_lt_false _ _ Hr Hmin)|].
      split; [by apply (num_lt_false _ _ Hmax Hr)|]. done.
Qed.
End BoundedClaims.

(** C2, as stated, fails -- with the bounds 0 and 10 and a function that
    returns the float NaN, both comparisons are false and the wrapper
    returns NaN, which is not between the bounds. *)
Lemma bounded_returns_nan :
  num_le (Int 0) (Int 10) = true ∧
  decorators.bounded (Int 0) (Int 10) (constant NaN) [] [] tt
  = (Return NaN, tt) ∧
  mynumber.bounded (Int 0) (Int 10) (constant NaN) [] [] tt
  = (Return NaN, tt) ∧
  num_le (Int 0) NaN = false ∧
  num_le NaN (Int 10) = false.
Proof. repeat split; reflexivity. Qed.

Lemma bounded_clamps_witness :
  num_le (Int 0) (Int 10) = true ∧
  f_call (constant (Int 15)) [] [] tt = (Return (Int 15), tt) ∧
  ∃ r',
    decorators.bounded (Int 0) (Int 10) (constant (Int 15)) [] [] tt
    = (Return r', tt) ∧
    mynumber.bounded (Int 0) (Int 10) (constant (Int 15)) [] [] tt
    = (Return r', tt) ∧
    (Int 15 ≠ NaN →
     num_le (Int 0) r' = true ∧ num_le r' (Int 10) = true ∧
     (num_le (Int 0) (Int 15) = true →
      num_le (Int 15) (Int 10) = true → r' = Int 15) ∧
     (num_lt (Int 15) (Int 0) = true → r' = Int 0) ∧
     (num_lt (Int 10) (Int 15) = true → r' = Int 10)) ∧
    (Int 15 = NaN → r' = NaN).
Proof.
  assert (num_le (Int 0) (Int 10) = true) as Hle by reflexivity.
  split; [exact Hle|]. split; [reflexivity|].
  exact (bounded_clamps (Int 0) (Int 10) (constant (Int 15))
           [] [] tt (Int 15) tt Hle eq_refl).
Defined.

(** ** Signature Validator *)

Section StrictlyTypedFacts.
Context {V : Type} `{!PyObject V} {W : Type}.
Implicit Types (ann : gmap string pyclass) (l : list (string * V)) (w : W).
Implicit Types (function : pyfunction V W V).

Lemma item_passes_dec ann (item : string * V) :
  {item_passes ann item} + {¬ item_passes ann item}.
Proof.
  unfold item_passes. destruct (ann !! item.1) as [t|] eqn:E.
  - destruct (isinstance item.2 t) eqn:Hi.
    + left. by exists t.
    + right. intros (t' & Ht & Hi'). congruence.
  - right. intros (t' & Ht & _). discriminate.
Defined.

(** One turn of the loop: an item that passes lets the loop go on, an
    item that does not ends it with that item's error. *)
Lemma check_args_pass ann item l w :
  item_passes ann item →
  decorators.check_args ann (item :: l) w = decorators.check_args ann l w.
Proof.
  intros (t & Ht & Hi). destruct item as [name arg]. simpl in Ht, Hi.
  simpl. unfold bind, decorators.annotations_getitem. rewrite Ht.
  unfold ret at 1. rewrite Hi. reflexivity.
Qed.

Lemma check_args_fail ann item l w :
  ¬ item_passes ann item →
  decorators.check_args ann (item :: l) w = (Raise (item_error ann item), w).
Proof.
  intros Hn. destruct item as [name arg].
  unfold item_error, item_passes in *. simpl in *.
  unfold bind, decorators.annotations_getitem.
  destruct (ann !! name) as [t|] eqn:E; [|reflexivity].
  unfold ret at 1. destruct (isinstance arg t) eqn:Hi; [|reflexivity].
  destruct Hn. by exists t.
Qed.

Lemma check_args_passes ann l w :
  Forall (item_passes ann) l →
  decorators.check_args ann l w = (Return tt, w).
Proof.
  induction 1 as [|item l Hp _ IH]; [reflexivity|].
  by rewrite check_args_pass.
Qed.

Lemma check_args_first_failure ann l1 item l2 w :
  Forall (item_passes ann) l1 →
  ¬ item_passes ann item →
  decorators.check_args ann (l1 ++ item :: l2) w
  = (Raise (item_error ann item), w).
Proof.
  induction 1 as [|item' l1 Hp _ IH]; intros Hn; simpl app.
  - by apply check_args_fail.
  - rewrite check_args_pass by done. by apply IH.
Qed.

(** The loop either passes every item, or stops at the first one that
    does not pass. *)
Lemma check_args_cases ann l :
  Forall (item_passes ann) l ∨
  ∃ l1 item l2, l = l1 ++ item :: l2 ∧ Forall (item_passes ann) l1 ∧
                ¬ item_passes ann item.
Proof.
  induction l as [|item l IH]; [by left|].
  destruct (item_passes_dec ann item) as [Hp|Hn].
  - destruct IH as [Hall|(l1 & item' & l2 & -> & Hall & Hn)].
    + left. by constructor.
    + right. exists (item :: l1), item', l2. split; [done|].
      split; [by constructor|done].
  - right. by exists [], item, l.
Qed.

(** The check never touches the state of the wrapped function. *)
Lemma check_args_state ann l w :
  (decorators.check_args ann l w).2 = w.
Proof.
  destruct (check_args_cases ann l) as [Hall|(l1 & item & l2 & -> & Hall & Hn)].
  - by rewrite check_args_passes.
  - by rewrite check_args_first_failure.
Qed.

Lemma check_args_returns ann l w :
  decorators.check_args ann l w = (Return tt, w) ↔ Forall (item_passes ann) l.
Proof.
  split; [|apply check_args_passes].
  intros Hc.
  destruct (check_args_cases ann l) as [Hall|(l1 & item & l2 & -> & Hall & Hn)];
    [done|].
  rewrite check_args_first_failure in Hc by done. discriminate.
Qed.

(** The decoration-time loop: it passes when every name is annotated, and
    stops at the first that is not. *)
Lemma assert_annotated_passes ann (names : list string) w :
  Forall (λ arg, is_Some (ann !! arg)) names →
  decorators.assert_annotated ann names w = (Return tt, w).
Proof.
  induction 1 as [|arg names Ha _ IH]; [reflexivity|].
  simpl. unfold bind, assert.
  rewrite bool_decide_eq_true_2 by done. exact IH.
Qed.

Lemma assert_annotated_first_missing ann (names1 : list string) name names2 w :
  Forall (λ a, is_Some (ann !! a)) names1 →
  ann !! name = None →
  decorators.assert_annotated ann (names1 ++ name :: names2) w
  = (Raise (mk_exn AssertionError
              ("missing type for parameter " +:+ dquote +:+ name +:+ dquote)),
     w).
Proof.
  induction 1 as [|a names1 Ha _ IH]; intros Hm; simpl.
  - unfold bind, assert. rewrite bool_decide_eq_false_2; [reflexivity|].
    rewrite Hm. by intros [? ?].
  - unfold bind, assert. rewrite bool_decide_eq_true_2 by done.
    by apply IH.
Qed.

(** A list with an element that fails a decidable test splits at the
    first such element. *)
Lemma first_missing ann (names : list string) name :
  name ∈ names → ann !! name = None →
  ∃ names1 name' names2,
    names = names1 ++ name' :: names2 ∧
    Forall (λ a, is_Some (ann !! a)) names1 ∧ ann !! name' = None.
Proof.
  induction names as [|a names IH]; intros Hin Hm.
  - by apply elem_of_nil in Hin.
  - destruct (ann !! a) as [t|] eqn:E.
    + apply elem_of_cons in Hin as [->|Hin]; [congruence|].
      destruct (IH Hin Hm) as (names1 & name' & names2 & -> & Hall & Hm').
      exists (a :: names1), name', names2. split; [done|]. split; [|done].
      constructor; [by rewrite E|done].
    + by exists [], a, names.
Qed.
End StrictlyTypedFacts.

Section StrictlyTypedClaims.
Context {V : Type} `{!PyObject V} {W : Type}.
Implicit Types (w : W) (function : pyfunction V W V).

(** The wrapper, once the call-time check has passed: the function is
    called and its result checked against the return annotation. *)
Lemma strictly_typed_wrapper_checked function args kwargs w :
  Forall (item_passes (f_annotations function))
    (decorators.all_args function args kwargs) →
  decorators.strictly_typed_wrapper function args kwargs w
  = (result <- f_call function args kwargs ;;
     t <- decorators.annotations_getitem (f_annotations function) "return" ;;
     _ <- assert (isinstance result t)
            ("expected return of " +:+ class_repr t
             +:+ " got " +:+ class_repr (type result)) ;;
     ret result) w.
Proof.
  intros Hall. unfold decorators.strictly_typed_wrapper.
  unfold bind at 1. by rewrite check_args_passes.
Qed.

(** The wrapper, when the call-time check stops at an item: the item's
    error is raised and the function is not called. *)
Lemma strictly_typed_wrapper_rejects function args kwargs w l1 item l2 :
  decorators.all_args function args kwargs = l1 ++ item :: l2 →
  Forall (item_passes (f_annotations function)) l1 →
  ¬ item_passes (f_annotations function) item →
  decorators.strictly_typed_wrapper function args kwargs w
  = (Raise (item_error (f_annotations function) item), w).
Proof.
  intros Heq Hall Hn. unfold decorators.strictly_typed_wrapper.
  unfold bind at 1. rewrite Heq.
  by rewrite check_args_first_failure.
Qed.

(** Decoration succeeds exactly when the return slot and every name of
    [args + kwonlyargs] is annotated, and then gives the wrapper. *)
Lemma strictly_typed_accepts function w :
  is_Some (f_annotations function !! "return") →
  Forall (λ a, is_Some (f_annotations function !! a))
    (spec_args (f_argspec function) ++ spec_kwonlyargs (f_argspec function)) →
  decorators.strictly_typed function w
  = (Return (decorators.strictly_typed_wrapper function), w).
Proof.
  intros Hr Hall. unfold decorators.strictly_typed, bind at 1, assert.
  rewrite bool_decide_eq_true_2 by done. unfold ret at 1.
  unfold bind. by rewrite assert_annotated_passes.
Qed.

(** Decoration fails on a return slot without annotation, and on the first
    name of [args + kwonlyargs] without one. *)
Lemma strictly_typed_rejects_return function w :
  f_annotations function !! "return" = None →
  decorators.strictly_typed function w
  = (Raise (mk_exn AssertionError "missing type for return value"), w).
Proof.
  intros Hr. unfold decorators.strictly_typed, bind at 1, assert.
  rewrite bool_decide_eq_false_2; [reflexivity|].
  rewrite Hr. by intros [? ?].
Qed.

Lemma strictly_typed_rejects_parameter function w names1 a names2 :
  is_Some (f_annotations function !! "return") →
  spec_args (f_argspec function) ++ spec_kwonlyargs (f_argspec function)
  = names1 ++ a :: names2 →
  Forall (λ a', is_Some (f_annotations function !! a')) names1 →
  f_annotations function !! a = None →
  decorators.strictly_typed function w
  = (Raise (mk_exn AssertionError
              ("missing type for parameter " +:+ dquote +:+ a +:+ dquote)),
     w).
Proof.
  intros Hr Heq Hall Hm. unfold decorators.strictly_typed, bind at 1, assert.
  rewrite bool_decide_eq_true_2 by done.
  unfold ret at 1. unfold bind at 1. rewrite Heq.
  by rewrite assert_annotated_first_missing.
Qed.

(** C4 -- Decorating a function that lacks an annotation on the return
    slot, on a positional parameter or on a keyword-only parameter fails at
    decoration time, with the state untouched and no wrapper produced: with
    the assertion [missing type for return value] when the return slot is
    not annotated, and otherwise with [missing type for parameter "a"]
    where [a] is the first parameter (positional ones first, then
    keyword-only ones) without annotation. *)
Theorem strictly_typed_requires_annotations function w :
  let ann := f_annotations function in
  let names :=
    spec_args (f_argspec function) ++ spec_kwonlyargs (f_argspec function) in
  (ann !! "return" = None ∨ ∃ a, a ∈ names ∧ ann !! a = None) →
  ∃ msg,
    decorators.strictly_typed function w
    = (Raise (mk_exn AssertionError msg), w) ∧
    ((ann !! "return" = None ∧ msg = "missing type for return value") ∨
     (is_Some (ann !! "return") ∧
      ∃ names1 a names2,
        names = names1 ++ a :: names2 ∧
        Forall (λ a', is_Some (ann !! a')) names1 ∧
        ann !! a = None ∧
        msg = "missing type for parameter " +:+ dquote +:+ a +:+ dquote)).
Proof.
  intros ann names Hmiss.
  destruct (ann !! "return") as [t|] eqn:Hr.
  - destruct Hmiss as [Hm|(a & Hin & Hm)]; [discriminate|].
    destruct (first_missing ann names a Hin Hm)
      as (names1 & a' & names2 & Heq & Hall & Hm').
    eexists. split.
    + apply (strictly_typed_rejects_parameter function w names1 a' names2);
        [by exists t|done..].
    + right. split; [by eexists|].
      by exists names1, a', names2.
  - eexists. split; [by apply strictly_typed_rejects_return|by left].
Qed.
(** What a successful decoration tells: the wrapper is the one of this
    function, the state is as before, and every slot is annotated. *)
Lemma strictly_typed_inv function w0 wrapper w1 :
  decorators.strictly_typed function w0 = (Return wrapper, w1) →
  wrapper = decorators.strictly_typed_wrapper function ∧ w1 = w0 ∧
  is_Some (f_annotations function !! "return") ∧
  Forall (λ a, is_Some (f_annotations function !! a))
    (spec_args (f_argspec function) ++ spec_kwonlyargs (f_argspec function)).
Proof.
  intros Hdec.
  set (names := spec_args (f_argspec function)
                ++ spec_kwonlyargs (f_argspec function)).
  assert (is_Some (f_annotations function !! "return")) as Hret.
  { destruct (f_annotations function !! "return") eqn:E; [by eexists|].
    rewrite strictly_typed_rejects_return in Hdec by done. discriminate. }
  assert (Forall (λ a, is_Some (f_annotations function !! a)) names) as Hall.
  { apply Forall_forall. intros a Hin.
    destruct (f_annotations function !! a) eqn:E; [by eexists|].
    destruct (first_missing _ names a Hin E)
      as (names1 & a' & names2 & Heq & Hall & Hm').
    rewrite (strictly_typed_rejects_parameter function w0 names1 a' names2)
      in Hdec by done.
    discriminate. }
  rewrite (strictly_typed_accepts function w0 Hret Hall) in Hdec.
  injection Hdec as <- <-. done.
Qed.

(** Positional arguments past the declared names take no part in the
    pairing. *)
Lemma zip_surplus {A B} (names : list A) (args extra : list B) :
  (length names ≤ length args)%nat →
  zip names (args ++ extra) = zip names args.
Proof.
  revert args. induction names as [|n names IH]; intros [|a args] Hlen;
    simpl in *; try done; try lia.
  f_equal. apply IH. lia.
Qed.

(** The names the pairing checks are the first [length args] declared
    ones. *)
Lemma zip_names {A B} (names : list A) (args : list B) :
  (zip names args).*1 = take (length args) names.
Proof.
  revert args. induction names as [|n names IH]; intros [|a args];
    simpl; try done.
  f_equal. apply IH.
Qed.

(** C3, as the code has it -- For a function wrapped by the Signature
    Validator, the call-time check runs over the declared positional names
    paired by position with the given positional arguments, followed by
    the keyword items.  When the first item that does not pass is an
    annotated name whose argument is not an instance of the annotation, the
    wrapper raises the assertion error naming the argument, the expected
    and the actual type, and the function is not called (the state is as
    before).  When every item passes, and the function returns a result
    that is an instance of the return annotation, the wrapper returns that
    result, with the function's effects. *)
Theorem strictly_typed_checks_given_arguments function w0 wrapper w1 :
  decorators.strictly_typed function w0 = (Return wrapper, w1) →
  ∀ args kwargs w,
    let ann := f_annotations function in
    let items := decorators.all_args function args kwargs in
    (∀ l1 name arg l2 t,
       items = l1 ++ (name, arg) :: l2 →
       Forall (item_passes ann) l1 →
       ann !! name = Some t →
       isinstance arg t = false →
       wrapper args kwargs w = (Raise (mismatch_error name t arg), w)) ∧
    (Forall (item_passes ann) items →
     ∀ result w' t,
       f_call function args kwargs w = (Return result, w') →
       ann !! "return" = Some t →
       isinstance result t = true →
       wrapper args kwargs w = (Return result, w')).
Proof.
  intros Hdec args kwargs w ann items.
  destruct (strictly_typed_inv _ _ _ _ Hdec) as (-> & _ & _ & _).
  split.
  - intros l1 name arg l2 t Heq Hall Ht Hi.
    rewrite (strictly_typed_wrapper_rejects _ _ _ _ _ _ _ Heq Hall).
    + unfold item_error. simpl. fold ann. by rewrite Ht.
    + intros (t' & Ht' & Hi'). simpl in *. fold ann in Ht'. congruence.
  - intros Hall result w' t Hf Ht Hi.
    rewrite strictly_typed_wrapper_checked by done.
    unfold bind at 1. rewrite Hf.
    unfold bind at 1, decorators.annotations_getitem. fold ann. rewrite Ht.
    unfold ret at 1. unfold bind, assert. by rewrite Hi.
Qed.

(** The outcome of the call-time loop does not depend on the annotation
    of a name that is not among the items. *)
Lemma check_args_frame (ann : gmap string pyclass) (l : list (string * V))
    name t w :
  name ∉ l.*1 →
  decorators.check_args (<[name := t]> ann) l w
  = decorators.check_args ann l w.
Proof.
  induction l as [|[k arg] l IH]; intros Hn; [done|].
  rewrite fmap_cons in Hn. apply not_elem_of_cons in Hn as [Hne Hn].
  cbn [fst] in Hne.
  cbn [decorators.check_args]. unfold bind, decorators.annotations_getitem.
  rewrite lookup_insert_ne by done.
  destruct (ann !! k) as [t'|]; [|reflexivity].
  unfold ret, assert.
  destruct (isinstance arg t'); [|reflexivity].
  unfold ret. by rewrite IH.
Qed.

(** A declared name that gets no positional argument and no keyword item
    is not among the checked names. *)
Lemma defaulted_not_checked (names : list string) (args : list V)
    (kwargs : list (string * V)) i name :
  NoDup names → names !! i = Some name →
  (length args ≤ i)%nat → name ∉ kwargs.*1 →
  name ∉ (zip names args ++ kwargs).*1.
Proof.
  intros Hnd Hi Hlen Hkw.
  rewrite fmap_app, zip_names. intros Hin.
  apply elem_of_app in Hin as [Hin|Hin]; [|done].
  apply list_elem_of_lookup in Hin as [j Hj].
  apply lookup_take_Some in Hj as [Hj Hlt].
  pose proof (NoDup_lookup _ _ _ _ Hnd Hi Hj). lia.
Qed.

(** C9 -- The wrapper of the Signature Validator validates the arguments
    given at the call and nothing else.  The checked items are the
    declared positional names paired by position with the given positional
    arguments, followed by the given keyword items: when all of them pass,
    the wrapper goes on to the call (and the check of its result); when
    one does not, the wrapper raises the error of the first such item and
    the function is not called.  Positional arguments past the declared
    names change neither: with the same checked items the call goes
    through, or is refused with the same error, whatever they are.  A
    parameter left to its default is never checked: the outcome of the
    call is the same whatever annotation that parameter carries. *)
Theorem strictly_typed_checks_only_passed function w0 wrapper w1 :
  decorators.strictly_typed function w0 = (Return wrapper, w1) →
  ∃ t,
    f_annotations function !! "return" = Some t ∧
    ∀ args kwargs w,
      let ann := f_annotations function in
      let names := spec_args (f_argspec function) in
      let checked := zip names args ++ kwargs in
      (Forall (item_passes ann) checked →
       wrapper args kwargs w = checked_call function t args kwargs w) ∧
      (∀ l1 item l2,
         checked = l1 ++ item :: l2 →
         Forall (item_passes ann) l1 → ¬ item_passes ann item →
         wrapper args kwargs w = (Raise (item_error ann item), w)) ∧
      (∀ extra,
         (length names ≤ length args)%nat →
         (Forall (item_passes ann) checked →
          wrapper (args ++ extra) kwargs w
          = checked_call function t (args ++ extra) kwargs w) ∧
         (∀ l1 item l2,
            checked = l1 ++ item :: l2 →
            Forall (item_passes ann) l1 → ¬ item_passes ann item →
            wrapper (args ++ extra) kwargs w
            = (Raise (item_error ann item), w))) ∧
      (∀ i name t',
         NoDup names → names !! i = Some name →
         (length args ≤ i)%nat → name ∉ kwargs.*1 → name ≠ "return" →
         decorators.strictly_typed_wrapper (with_annotation name t' function)
           args kwargs w
         = wrapper args kwargs w).
Proof.
  intros Hdec.
  destruct (strictly_typed_inv _ _ _ _ Hdec) as (-> & _ & [t Ht] & _).
  exists t. split; [exact Ht|].
  assert (∀ args kwargs w,
            Forall (item_passes (f_annotations function))
              (decorators.all_args function args kwargs) →
            decorators.strictly_typed_wrapper function args kwargs w
            = checked_call function t args kwargs w) as Hpass.
  { intros args kwargs w Hall.
    rewrite strictly_typed_wrapper_checked by done.
    unfold bind at 1, checked_call.
    destruct (f_call function args kwargs w) as [[result|e] w']; [|done].
    unfold bind at 1, decorators.annotations_getitem. rewrite Ht.
    unfold ret at 1. unfold bind, assert, return_error.
    by destruct (isinstance result t). }
  intros args kwargs w ann names checked.
  split; [apply Hpass|].
  split.
  { intros l1 item l2 Heq Hall Hn.
    by apply (strictly_typed_wrapper_rejects _ _ _ _ l1 item l2). }
  split.
  - intros extra Hlen.
    assert (decorators.all_args function (args ++ extra) kwargs = checked)
      as Hsame
      by (unfold decorators.all_args, checked, names; by rewrite zip_surplus).
    split.
    + intros Hall. apply Hpass. by rewrite Hsame.
    + intros l1 item l2 Heq Hall Hn.
      apply (strictly_typed_wrapper_rejects _ _ _ _ l1 item l2); [|done..].
      by rewrite Hsame.
  - intros i name t' Hnd Hi Hlen Hkw Hret.
    pose proof (defaulted_not_checked names args kwargs i name Hnd Hi Hlen Hkw)
      as Hn.
    unfold decorators.strictly_typed_wrapper.
    cbn [with_annotation f_annotations f_call].
    change (decorators.all_args (with_annotation name t' function) args kwargs)
      with checked.
    change (decorators.all_args function args kwargs) with checked.
    unfold bind at 1 5. rewrite check_args_frame by done.
    destruct (decorators.check_args (f_annotations function) checked w)
      as [[[]|e] w2]; [|done].
    unfold bind at 1 4.
    destruct (f_call function args kwargs w2) as [[result|e] w3]; [|done].
    unfold bind at 1 3, decorators.annotations_getitem.
    by rewrite lookup_insert_ne.
Qed.

(** C10, as the code has it -- For a function wrapped by the Signature
    Validator, a call with a keyword item whose name is not annotated fails
    inside the wrapper before the function is called (the state is as
    before).  The error is the [KeyError] of that name when every item
    checked before it -- the positional pairs and the earlier keyword
    items -- passes; otherwise it is the error of an item among those that
    does not pass. *)
Theorem strictly_typed_unannotated_keyword function w0 wrapper w1
    args kwargs1 k v kwargs2 w :
  let ann := f_annotations function in
  let before := zip (spec_args (f_argspec function)) args ++ kwargs1 in
  decorators.strictly_typed function w0 = (Return wrapper, w1) →
  ann !! k = None →
  ∃ e,
    wrapper args (kwargs1 ++ (k, v) :: kwargs2) w = (Raise e, w) ∧
    (Forall (item_passes ann) before → e = key_error k) ∧
    (¬ Forall (item_passes ann) before →
     ∃ item, item ∈ before ∧ ¬ item_passes ann item ∧
             e = item_error ann item).
Proof.
  intros ann before Hdec Hk.
  destruct (strictly_typed_inv _ _ _ _ Hdec) as (-> & _ & _ & _).
  assert (decorators.all_args function args (kwargs1 ++ (k, v) :: kwargs2)
          = before ++ (k, v) :: kwargs2) as Hitems
    by (unfold decorators.all_args, before; by rewrite app_assoc).
  destruct (check_args_cases ann before)
    as [Hall|(l1 & item & l2 & Heq & Hall & Hn)].
  - exists (key_error k). split; [|split; [done|by intros []]].
    rewrite (strictly_typed_wrapper_rejects _ _ _ _ _ _ _ Hitems Hall).
    + unfold item_error. simpl. fold ann. by rewrite Hk.
    + intros (t & Ht & _). simpl in Ht. fold ann in Ht. congruence.
  - exists (item_error ann item). split; [|split].
    + apply (strictly_typed_wrapper_rejects _ _ _ _ l1 item
               (l2 ++ (k, v) :: kwargs2)); [|done..].
      rewrite Hitems, Heq. by rewrite <- app_assoc.
    + intros Hall'. rewrite Heq in Hall'.
      apply Forall_app in Hall' as [_ Hall'].
      apply Forall_cons in Hall' as [Hp _]. done.
    + intros _. exists item. split; [|done].
      rewrite Heq. apply elem_of_app. right. apply elem_of_cons. by left.
Qed.
End StrictlyTypedClaims.

Lemma strictly_typed_requires_annotations_witness :
  let ann := f_annotations half in
  let names := spec_args (f_argspec half) ++ spec_kwonlyargs (f_argspec half) in
  (ann !! "return" = None ∨ ∃ a, a ∈ names ∧ ann !! a = None) ∧
  ∃ msg,
    decorators.strictly_typed half 0%nat
    = (Raise (mk_exn AssertionError msg), 0%nat) ∧
    ((ann !! "return" = None ∧ msg = "missing type for return value") ∨
     (is_Some (ann !! "return") ∧
      ∃ names1 a names2,
        names = names1 ++ a :: names2 ∧
        Forall (λ a', is_Some (ann !! a')) names1 ∧
        ann !! a = None ∧
        msg = "missing type for parameter " +:+ dquote +:+ a +:+ dquote)).
Proof.
  intros ann names.
  assert (ann !! "return" = None ∨ ∃ a, a ∈ names ∧ ann !! a = None) as Hmiss.
  { right. exists "b". split; [|reflexivity].
    apply elem_of_cons. right. apply elem_of_cons. by left. }
  split; [exact Hmiss|].
  exact (strictly_typed_requires_annotations half 0%nat Hmiss).
Defined.

(** C3, as stated, fails on both counts.  [first(a: int, *rest: int)]
    called as [first(1, 'x')]: the second argument is a [str] where [int]
    is declared, yet the wrapper raises nothing and the function is called
    (the invocation count goes up by one).  [tagged(a: int, **tags)] called
    as [tagged(1, z=2)]: no argument contradicts a declared type and the
    function itself returns the [int] 1, yet the wrapper raises
    [KeyError('z')] and the function is not called. *)
Lemma strictly_typed_surplus_positional_unchecked :
  positional_annotation first 1 = Some c_int ∧
  isinstance (VStr "x") c_int = false ∧
  match decorators.strictly_typed first 0%nat with
  | (Return wrapper, w) =>
      wrapper [VInt 1; VStr "x"] [] w = (Return (VInt 1), S w)
  | (Raise _, _) => False
  end ∧
  f_call tagged [VInt 1] [("z", VInt 2)] 0%nat = (Return (VInt 1), 1%nat) ∧
  match decorators.strictly_typed tagged 0%nat with
  | (Return wrapper, w) =>
      wrapper [VInt 1] [("z", VInt 2)] w
      = (Raise (mk_exn KeyError "'z'"), w)
  | (Raise _, _) => False
  end.
Proof. vm_compute. repeat split; reflexivity. Qed.

Lemma strictly_typed_checks_given_arguments_witness :
  decorators.strictly_typed add 0%nat
  = (Return (decorators.strictly_typed_wrapper add), 0%nat) ∧
  decorators.strictly_typed_wrapper add [VInt 1; VStr "2"] [] 0%nat
  = (Raise (mismatch_error "b" c_int (VStr "2")), 0%nat) ∧
  decorators.strictly_typed_wrapper add [VInt 1; VInt 2] [] 0%nat
  = (Return (VInt 3), 1%nat).
Proof.
  assert (decorators.strictly_typed add 0%nat
          = (Return (decorators.strictly_typed_wrapper add), 0%nat)) as Hdec
    by reflexivity.
  split; [exact Hdec|]. split.
  - destruct (strictly_typed_checks_given_arguments add 0%nat _ 0%nat Hdec
                [VInt 1; VStr "2"] [] 0%nat) as [H _].
    apply (H [("a", VInt 1)] "b" (VStr "2") [] c_int);
      [reflexivity| |reflexivity|reflexivity].
    constructor; [|constructor]. exists c_int. split; reflexivity.
  - destruct (strictly_typed_checks_given_arguments add 0%nat _ 0%nat Hdec
                [VInt 1; VInt 2] [] 0%nat) as [_ H].
    apply (H ltac:(repeat constructor; exists c_int; split; reflexivity)
             (VInt 3) 1%nat c_int); reflexivity.
Defined.

Lemma strictly_typed_checks_only_passed_witness :
  decorators.strictly_typed add 0%nat
  = (Return (decorators.strictly_typed_wrapper add), 0%nat) ∧
  decorators.strictly_typed_wrapper add [VInt 1; VStr "2"] [] 0%nat
  = (Raise (item_error (f_annotations add) ("b", VStr "2")), 0%nat) ∧
  decorators.strictly_typed_wrapper first ([VInt 1] ++ [VStr "x"]) [] 0%nat
  = checked_call first c_int ([VInt 1] ++ [VStr "x"]) [] 0%nat.
Proof.
  assert (decorators.strictly_typed add 0%nat
          = (Return (decorators.strictly_typed_wrapper add), 0%nat)) as Hdec
    by reflexivity.
  assert (decorators.strictly_typed first 0%nat
          = (Return (decorators.strictly_typed_wrapper first), 0%nat)) as Hdec'
    by reflexivity.
  split; [exact Hdec|]. split.
  - destruct (strictly_typed_checks_only_passed add 0%nat _ 0%nat Hdec)
      as (t & _ & H).
    destruct (H [VInt 1; VStr "2"] [] 0%nat) as (_ & H2 & _).
    apply (H2 [("a", VInt 1)] ("b", VStr "2") []); [reflexivity| |].
    + constructor; [|constructor]. exists c_int. split; reflexivity.
    + intros (t' & Ht' & Hi). injection Ht' as <-. discriminate.
  - destruct (strictly_typed_checks_only_passed first 0%nat _ 0%nat Hdec')
      as (t & Ht & H).
    injection Ht as <-.
    destruct (H [VInt 1] [] 0%nat) as (_ & _ & H3 & _).
    destruct (H3 [VStr "x"]) as [H3a _]; [simpl; lia|].
    apply H3a. constructor; [|constructor].
    exists c_int. split; reflexivity.
Defined.

(** C10, as stated, fails -- [tagged(a: int, **tags)] called as
    [tagged('x', z=1)]: the keyword [z] has no entry in the annotations,
    yet the call fails with the type-mismatch assertion of [a], which is
    checked first, not with a key-lookup error. *)
Lemma strictly_typed_mismatch_before_keyword :
  f_annotations tagged !! "z" = None ∧
  match decorators.strictly_typed tagged 0%nat with
  | (Return wrapper, w) =>
      wrapper [VStr "x"] [("z", VInt 1)] w
      = (Raise (mk_exn AssertionError
                  ("expected argument " +:+ dquote +:+ "a" +:+ dquote
                   +:+ " of <class 'int'> got <class 'str'>")), w)
  | (Raise _, _) => False
  end.
Proof. vm_compute. split; reflexivity. Qed.

Lemma strictly_typed_unannotated_keyword_witness :
  let ann := f_annotations tagged in
  let before := zip (spec_args (f_argspec tagged)) [VInt 1] ++ [] in
  decorators.strictly_typed tagged 0%nat
  = (Return (decorators.strictly_typed_wrapper tagged), 0%nat) ∧
  ann !! "z" = None ∧
  ∃ e,
    decorators.strictly_typed_wrapper tagged [VInt 1]
      ([] ++ ("z", VInt 2) :: []) 0%nat = (Raise e, 0%nat) ∧
    (Forall (item_passes ann) before → e = key_error "z") ∧
    (¬ Forall (item_passes ann) before →
     ∃ item, item ∈ before ∧ ¬ item_passes ann item ∧
             e = item_error ann item).
Proof.
  intros ann before.
  assert (decorators.strictly_typed tagged 0%nat
          = (Return (decorators.strictly_typed_wrapper tagged), 0%nat)) as Hdec
    by reflexivity.
  assert (ann !! "z" = None) as Hk by reflexivity.
  split; [exact Hdec|]. split; [exact Hk|].
  exact (strictly_typed_unannotated_keyword tagged 0%nat _ 0%nat
           [VInt 1] [] "z" (VInt 2) [] 0%nat Hdec Hk).
Defined.

(** ** Coroutine Primer *)

Section CoroutineClaims.
Context {V : Type} `{!PyObject V} {W St : Type}.
Implicit Types (function : pyfunction V W (@decorators.generator V W St)).

(** An exception of the generator function itself (raised by the call,
    before there is a generator) reaches the caller of the wrapper, with
    the state the call left; nothing is resumed. *)
Lemma coroutine_constructor_raises function args kwargs w e w1 :
  f_call function args kwargs w = (Raise e, w1) →
  decorators.coroutine function args kwargs w = (Raise e, w1).
Proof.
  intros Hf. unfold decorators.coroutine, decorators.coroutine_wrapper.
  unfold bind at 1. by rewrite Hf.
Qed.

(** The wrapper is the call followed by one [next]. *)
Lemma coroutine_next function args kwargs w g w1 :
  f_call function args kwargs w = (Return g, w1) →
  decorators.coroutine function args kwargs w
  = match decorators.next g w1 with
    | (Return advanced, w2) => (Return advanced.2, w2)
    | (Raise e, w2) => (Raise e, w2)
    end.
Proof.
  intros Hf. unfold decorators.coroutine, decorators.coroutine_wrapper.
  unfold bind at 1. rewrite Hf. reflexivity.
Qed.

(** C5 -- The wrapper of the Coroutine Primer calls the generator
    function with the given arguments and resumes the generator it gets
    exactly once.  When the body suspends at a [yield], the wrapper returns
    that generator, suspended there, and the value yielded is dropped.
    When the body returns before any [yield], the [StopIteration] of
    [next] reaches the caller; when the body raises, the error reaches the
    caller (a [StopIteration] of the body as a [RuntimeError]); a
    generator that had already finished gives [StopIteration]; in none of
    these cases a generator is returned. *)
Theorem coroutine_primes function args kwargs w g w1 :
  f_call function args kwargs w = (Return g, w1) →
  match decorators.gi_frame g with
  | None =>
      decorators.coroutine function args kwargs w
      = (Raise (mk_exn StopIteration EmptyString), w1)
  | Some s =>
      match decorators.gi_code g s None w1 with
      | (decorators.Yielded v s', w2) =>
          decorators.coroutine function args kwargs w
          = (Return (decorators.set_frame (Some s') g), w2)
      | (decorators.Returned v, w2) =>
          decorators.coroutine function args kwargs w
          = (Raise (decorators.stop_iteration v), w2)
      | (decorators.Raised e, w2) =>
          ∃ e', decorators.coroutine function args kwargs w = (Raise e', w2) ∧
                (exn_type e ≠ StopIteration → e' = e) ∧
                (exn_type e = StopIteration → exn_type e' = RuntimeError)
      end
  end.
Proof.
  intros Hf. rewrite (coroutine_next _ _ _ _ _ _ Hf).
  unfold decorators.next.
  destruct (decorators.gi_frame g) as [s|]; [|reflexivity].
  destruct (decorators.gi_code g s None w1) as [[v s'|v|e] w2];
    [reflexivity..|].
  eexists. split; [reflexivity|].
  split; intros He.
  - by rewrite bool_decide_eq_false_2.
  - by rewrite bool_decide_eq_true_2.
Qed.
End CoroutineClaims.

Lemma coroutine_primes_witness :
  f_call count [VInt 0] [] 0%nat
  = (Return {| decorators.gi_frame := Some 0;
               decorators.gi_code := count_code |}, 0%nat) ∧
  decorators.coroutine count [VInt 0] [] 0%nat
  = (Return {| decorators.gi_frame := Some 1;
               decorators.gi_code := count_code |}, 1%nat).
Proof.
  assert (f_call count [VInt 0] [] 0%nat
          = (Return {| decorators.gi_frame := Some 0;
                       decorators.gi_code := count_code |}, 0%nat)) as Hf
    by reflexivity.
  split; [exact Hf|].
  exact (coroutine_primes count [VInt 0] [] 0%nat _ 0%nat Hf).
Defined.


(** * Further properties *)

(** ** Call Logger: the shared channel *)

Section LoggedChannel.
Context {V : Type} `{!PyObject V} {W : Type}.
Implicit Types (p : process W) (function : pyfunction V W V).

(** An application of the decorator sets the threshold and switches
    [propagate] off before it opens the destination, so both are changed
    even when the open fails; the state of the wrapped functions is never
    touched.  When the open succeeds the file exists afterwards, with the
    lines it had (none when it is new), and every other file is as before;
    when it fails the error of the open is raised, no file is touched and
    the handlers are as before. *)
Theorem logged_decoration_opens_destination file level function p :
  let d := log_path (p_tempdir p) file in
  let '(o, p') := decorators.logged file level function p in
  p_user p' = p_user p ∧
  lg_propagate (p_logger p') = false ∧
  lg_level (p_logger p') ≠ NOTSET ∧
  match p_open p d with
  | None =>
      (∃ wrapper, o = Return wrapper) ∧
      lg_handlers (p_logger p') = [d] ∧
      p_files p' !! d = Some (default [] (p_files p !! d)) ∧
      (∀ path, path ≠ d → p_files p' !! path = p_files p !! path)
  | Some e =>
      o = Raise e ∧
      lg_handlers (p_logger p') = lg_handlers (p_logger p) ∧
      p_files p' = p_files p
  end.
Proof.
  intros d.
  destruct (logged_decorator_state file level function p)
    as (n & _ & Hnz & ->). fold d.
  destruct (p_open p d) as [e|]; cbn [p_user p_logger lg_propagate lg_level
    lg_handlers p_files].
  - by repeat split.
  - split; [done|]. split; [done|]. split; [done|].
    split; [by eexists|]. split; [done|].
    split; [apply open_append_lookup|].
    intros path Hne. by apply open_append_lookup_ne.
Qed.

(** The channel is shared.  A wrapper made by one decoration and called
    after a later one writes to the later destination, and only when its
    own level reaches the threshold the later decoration set; the outcome
    of the call is the function's own in either case. *)
Theorem logged_later_decoration_governs
    file (level : string) function file' (level' : string) function'
    p0 args kwargs u :
  level ∈ decorators.levels →
  level' ∈ decorators.levels →
  p_open p0 (decorators.destination file p0) = None →
  p_open p0 (decorators.destination file' p0) = None →
  ∃ n m wrapper p1 wrapper' p2,
    decorators.logging_level (Some level) = Return n ∧
    decorators.logging_level (Some level') = Return m ∧
    decorators.logged file (Some level) function p0 = (Return wrapper, p1) ∧
    decorators.logged file' (Some level') function' p1
    = (Return wrapper', p2) ∧
    let d' := decorators.destination file' p0 in
    let '(o, u') := f_call function args kwargs u in
    wrapper args kwargs (set_user u p2)
    = (o, if m <=? n
          then set_files
                 (<[d' := (p_files p2 !!! d')
                          ++ [logged_line function args kwargs o]]>
                    (p_files p2))
                 (set_user u' p2)
          else set_user u' p2).
Proof.
  intros Hin Hin' Hopen Hopen'.
  destruct (levels_resolve level Hin) as (n & Hn & _ & Hlow & Hattr).
  destruct (levels_resolve level' Hin') as (m & Hm & Hmz & _ & _).
  destruct (logged_opened file (Some level) function p0 Hopen)
    as (n0 & _ & _ & Hdec).
  match type of Hdec with _ = (_, ?q) => set (p1 := q) in * end.
  destruct (logged_opened file' (Some level') function' p1 Hopen')
    as (m' & Hm' & _ & Hdec').
  unfold decorators.level_in_levels in Hm'.
  rewrite bool_decide_eq_true_2 in Hm' by exact Hin'.
  rewrite Hm in Hm'. injection Hm' as <-.
  eexists n, m, _, p1, _, _.
  split; [exact Hn|]. split; [exact Hm|].
  split; [exact Hdec|]. split; [exact Hdec'|].
  intros d'.
  rewrite (logged_wrapper_configured _ _ _ _ _ _ _ d' Hlow Hattr);
    [|reflexivity|exact Hmz].
  cbn [set_user p_user p_logger lg_level].
  by destruct (f_call function args kwargs u) as [o u'].
Qed.

(** A level outside the five names whose lower-case form is one of the
    seven plain emission methods of the logger ([critical], [warn], or one
    of the five in capitals) works: the threshold is INFO, the call has the
    function's outcome, and its line is written when the method's level is
    at least INFO. *)
Theorem logged_unlisted_level_emits file level n function p0 args kwargs u :
  decorators.level_in_levels level = false →
  emission_attr level = Some (Emitter n) →
  p_open p0 (decorators.destination file p0) = None →
  (∃ s, level = Some s ∧
        lower s ∈ ["debug"; "info"; "warning"; "warn"; "error"; "critical";
                   "fatal"]) ∧
  ∃ wrapper p1,
    decorators.logged file level function p0 = (Return wrapper, p1) ∧
    lg_level (p_logger p1) = INFO ∧
    let d := decorators.destination file p0 in
    let '(o, u') := f_call function args kwargs u in
    wrapper args kwargs (set_user u p1)
    = (o, if INFO <=? n
          then set_files
                 (<[d := (p_files p1 !!! d)
                         ++ [logged_line function args kwargs o]]>
                    (p_files p1))
                 (set_user u' p1)
          else set_user u' p1).
Proof.
  intros Hin Hattr Hopen.
  destruct level as [s|]; [|discriminate].
  split; [exists s; split; [done|by apply (Logger_getattr_emitter _ n)]|].
  destruct (logged_opened file (Some s) function p0 Hopen)
    as (n0 & Hn0 & _ & Hdec).
  rewrite Hin in Hn0. injection Hn0 as <-.
  eexists _, _. split; [exact Hdec|]. split; [reflexivity|].
  intros d.
  rewrite (logged_wrapper_configured (Some s) (lower s) n _ _ _ _ d);
    [|reflexivity|exact Hattr|reflexivity|discriminate].
  cbn [set_user p_user p_logger lg_level].
  by destruct (f_call function args kwargs u) as [o u'].
Qed.

(** An exception that does not derive from [Exception] (such as
    [KeyboardInterrupt]) is not caught by the wrapper: it reaches the
    caller, and the line written for the call is that of a call which
    returned [None]. *)
Theorem logged_base_exception_line
    file (level : string) function p0 args kwargs u e u' :
  level ∈ decorators.levels →
  p_open p0 (decorators.destination file p0) = None →
  f_call function args kwargs u = (Raise e, u') →
  is_Exception (exn_type e) = false →
  ∃ wrapper p1,
    decorators.logged file (Some level) function p0 = (Return wrapper, p1) ∧
    let d := decorators.destination file p0 in
    wrapper args kwargs (set_user u p1)
    = (Raise e,
       set_files
         (<[d := (p_files p1 !!! d)
                 ++ [decorators.call_text function args kwargs
                     +:+ ") -> None"]]> (p_files p1))
         (set_user u' p1)).
Proof.
  intros Hin Hopen Hf He.
  destruct (levels_resolve level Hin) as (n & Hn & Hnz & Hlow & Hattr).
  destruct (logged_opened file (Some level) function p0 Hopen)
    as (n' & Hn' & _ & Hdec).
  unfold decorators.level_in_levels in Hn'.
  rewrite bool_decide_eq_true_2 in Hn' by exact Hin.
  rewrite Hn in Hn'. injection Hn' as <-.
  eexists _, _. split; [exact Hdec|].
  intros d.
  rewrite (logged_wrapper_configured _ _ _ _ _ _ _ d Hlow Hattr);
    [|reflexivity|exact Hnz].
  cbn [set_user p_user p_logger lg_level p_files]. rewrite Hf.
  rewrite Z.leb_refl. unfold logged_line. by rewrite He.
Qed.
End LoggedChannel.

Lemma logged_later_decoration_governs_witness :
  "debug" ∈ decorators.levels ∧
  "error" ∈ decorators.levels ∧
  p_open (fresh_process "/tmp" tt)
    (decorators.destination (Some "a.log") (fresh_process "/tmp" tt)) = None ∧
  p_open (fresh_process "/tmp" tt)
    (decorators.destination (Some "b.log") (fresh_process "/tmp" tt)) = None ∧
  ∃ n m wrapper p1 wrapper' p2,
    decorators.logging_level (Some "debug") = Return n ∧
    decorators.logging_level (Some "error") = Return m ∧
    decorators.logged (Some "a.log") (Some "debug") (@mylog.say_word unit)
      (fresh_process "/tmp" tt) = (Return wrapper, p1) ∧
    decorators.logged (Some "b.log") (Some "error") (@mylog.divide unit) p1
    = (Return wrapper', p2) ∧
    let d' := decorators.destination (Some "b.log") (fresh_process "/tmp" tt) in
    let '(o, u') := f_call (@mylog.say_word unit) [] [] tt in
    wrapper [] [] (set_user tt p2)
    = (o, if m <=? n
          then set_files
                 (<[d' := (p_files p2 !!! d')
                          ++ [logged_line (@mylog.say_word unit) [] [] o]]>
                    (p_files p2))
                 (set_user u' p2)
          else set_user u' p2).
Proof.
  assert ("debug" ∈ decorators.levels) as Hin
    by (unfold decorators.levels; set_solver).
  assert ("error" ∈ decorators.levels) as Hin'
    by (unfold decorators.levels; set_solver).
  split; [exact Hin|]. split; [exact Hin'|].
  split; [reflexivity|]. split; [reflexivity|].
  exact (logged_later_decoration_governs (Some "a.log") "debug" mylog.say_word
           (Some "b.log") "error" mylog.divide (fresh_process "/tmp" tt)
           [] [] tt Hin Hin' eq_refl eq_refl).
Defined.

Lemma logged_unlisted_level_emits_witness :
  decorators.level_in_levels (Some "critical") = false ∧
  emission_attr (Some "critical") = Some (Emitter CRITICAL) ∧
  p_open (fresh_process "/tmp" tt)
    (decorators.destination None (fresh_process "/tmp" tt)) = None ∧
  (∃ s, Some "critical" = Some s ∧
        lower s ∈ ["debug"; "info"; "warning"; "warn"; "error"; "critical";
                   "fatal"]) ∧
  ∃ wrapper p1,
    decorators.logged None (Some "critical") (@mylog.say_word unit)
      (fresh_process "/tmp" tt) = (Return wrapper, p1) ∧
    lg_level (p_logger p1) = INFO ∧
    let d := decorators.destination None (fresh_process "/tmp" tt) in
    let '(o, u') := f_call (@mylog.say_word unit) [] [] tt in
    wrapper [] [] (set_user tt p1)
    = (o, if INFO <=? CRITICAL
          then set_files
                 (<[d := (p_files p1 !!! d)
                         ++ [logged_line (@mylog.say_word unit) [] [] o]]>
                    (p_files p1))
                 (set_user u' p1)
          else set_user u' p1).
Proof.
  assert (decorators.level_in_levels (Some "critical") = false) as Hin
    by (vm_compute; reflexivity).
  assert (emission_attr (Some "critical") = Some (Emitter CRITICAL)) as Hattr
    by (vm_compute; reflexivity).
  split; [exact Hin|]. split; [exact Hattr|]. split; [reflexivity|].
  exact (logged_unlisted_level_emits None (Some "critical") CRITICAL
           mylog.say_word (fresh_process "/tmp" tt) [] [] tt Hin Hattr
           eq_refl).
Defined.

Lemma logged_base_exception_line_witness :
  "info" ∈ decorators.levels ∧
  p_open (fresh_process "/tmp" tt)
    (decorators.destination None (fresh_process "/tmp" tt)) = None ∧
  f_call interrupted [] [] tt
  = (Raise (mk_exn KeyboardInterrupt EmptyString), tt) ∧
  is_Exception KeyboardInterrupt = false ∧
  ∃ wrapper p1,
    decorators.logged None (Some "info") interrupted (fresh_process "/tmp" tt)
    = (Return wrapper, p1) ∧
    let d := decorators.destination None (fresh_process "/tmp" tt) in
    wrapper [] [] (set_user tt p1)
    = (Raise (mk_exn KeyboardInterrupt EmptyString),
       set_files
         (<[d := (p_files p1 !!! d)
                 ++ [decorators.call_text interrupted [] []
                     +:+ ") -> None"]]> (p_files p1))
         (set_user tt p1)).
Proof.
  assert ("info" ∈ decorators.levels) as Hin
    by (unfold decorators.levels; set_solver).
  split; [exact Hin|]. split; [reflexivity|].
  split; [reflexivity|]. split; [reflexivity|].
  exact (logged_base_exception_line None "info" interrupted
           (fresh_process "/tmp" tt) [] [] tt
           (mk_exn KeyboardInterrupt EmptyString) tt Hin eq_refl eq_refl
           eq_refl).
Defined.

(** ** The script of [mylog.py] *)

Section MainScript.
Context {W : Type}.
Implicit Types (p : process W).

(** Run in a process in which [logged.log] in the temporary directory can
    be opened -- whatever level, handlers and [propagate] the logger had
    and whatever the log file already holds -- the script ends in the
    [ZeroDivisionError] of [divide()], having appended the line of
    [say_word()] and the line of [divide()] to that file; the lines that
    were there stay, and no other file changes. *)
Theorem main_appends_two_lines p :
  let d := path_join (p_tempdir p) "logged.log" in
  p_open p d = None →
  let '(o, p') := mylog.main p in
  o = Raise (mk_exn ZeroDivisionError "division by zero") ∧
  p_files p' !! d
  = Some (default [] (p_files p !! d)
          ++ ["called: say_word() -> hello";
              "called: divide(<class 'ZeroDivisionError'>: division by zero"]) ∧
  (∀ path, path ≠ d → p_files p' !! path = p_files p !! path) ∧
  p_user p' = p_user p.
Proof.
  intros d Hopen. unfold mylog.main, bind.
  change (@mylog.logged pyval _ W) with (@decorators.logged pyval _ W).
  destruct (logged_opened None (Some "debug") mylog.say_word p Hopen)
    as (n & Hn & _ & ->).
  vm_compute in Hn. injection Hn as <-.
  match goal with |- context [decorators.logged _ _ _ ?q] => set (p1 := q) end.
  destruct (logged_opened None (Some "debug") mylog.divide p1 Hopen)
    as (n & Hn & _ & ->).
  vm_compute in Hn. injection Hn as <-.
  match goal with
  | |- context [decorators.logged_wrapper _ mylog.say_word _ _ ?q] =>
      set (p2 := q)
  end.
  rewrite (logged_wrapper_configured (Some "debug") "debug" DEBUG
             mylog.say_word [] [] p2 d);
    [|reflexivity|vm_compute; reflexivity|reflexivity|discriminate].
  change (f_call mylog.say_word [] [] (p_user p2))
    with (Return (VStr "hello"), p_user p).
  cbv beta iota.
  change (lg_level (p_logger p2) <=? DEBUG) with true. cbv beta iota.
  change (logged_line mylog.say_word [] [] (Return (VStr "hello")))
    with "called: say_word() -> hello".
  match goal with
  | |- context [decorators.logged_wrapper _ mylog.divide _ _ ?q] =>
      set (p3 := q)
  end.
  rewrite (logged_wrapper_configured (Some "debug") "debug" DEBUG
             mylog.divide [] [] p3 d);
    [|reflexivity|vm_compute; reflexivity|reflexivity|discriminate].
  change (f_call mylog.divide [] [] (p_user p3))
    with (@Raise pyval (mk_exn ZeroDivisionError "division by zero"),
          p_user p).
  cbv beta iota.
  change (lg_level (p_logger p3) <=? DEBUG) with true. cbv beta iota.
  change (logged_line mylog.divide [] []
            (Raise (mk_exn ZeroDivisionError "division by zero")))
    with "called: divide(<class 'ZeroDivisionError'>: division by zero".
  assert (p_files p2 !! d = Some (default [] (p_files p !! d))) as H2.
  { change (p_files p2) with (open_append d (open_append d (p_files p))).
    by rewrite !open_append_lookup. }
  assert (∀ path, path ≠ d → p_files p2 !! path = p_files p !! path) as H2'.
  { intros path Hne.
    change (p_files p2) with (open_append d (open_append d (p_files p))).
    by rewrite !open_append_lookup_ne. }
  assert (p_files p2 !!! d = default [] (p_files p !! d)) as H2t
    by (by rewrite lookup_total_alt, H2).
  clearbody p2. subst p3. cbn [p_files set_files p_user set_user].
  split; [reflexivity|]. split; [|split; [|reflexivity]].
  - rewrite lookup_insert_eq, lookup_total_insert_eq, H2t.
    by rewrite <- app_assoc.
  - intros path Hne. rewrite !lookup_insert_ne by done. by apply H2'.
Qed.
End MainScript.

Lemma main_appends_two_lines_witness :
  p_open (fresh_process "/tmp" tt) (path_join "/tmp" "logged.log") = None ∧
  let '(o, p') := @mylog.main unit (fresh_process "/tmp" tt) in
  o = Raise (mk_exn ZeroDivisionError "division by zero") ∧
  p_files p' !! path_join "/tmp" "logged.log"
  = Some (default [] (p_files (fresh_process "/tmp" tt)
                        !! path_join "/tmp" "logged.log")
          ++ ["called: say_word() -> hello";
              "called: divide(<class 'ZeroDivisionError'>: division by zero"]) ∧
  (∀ path, path ≠ path_join "/tmp" "logged.log" →
           p_files p' !! path = p_files (fresh_process "/tmp" tt) !! path) ∧
  p_user p' = tt.
Proof.
  split; [reflexivity|].
  exact (main_appends_two_lines (fresh_process "/tmp" tt) eq_refl).
Defined.

(** ** Bounded Result Clamp: errors, inverted bounds, re-decoration *)

Section BoundedFurther.
Context {V W : Type}.
Implicit Types (function : pyfunction V W Z).

(** An exception of the wrapped function passes through the clamp
    unchanged, with the function's effects; nothing is compared. *)
Theorem bounded_propagates_errors minimum maximum function
    args kwargs w e w' :
  f_call function args kwargs w = (Raise e, w') →
  decorators.bounded minimum maximum function args kwargs w = (Raise e, w') ∧
  mynumber.bounded minimum maximum function args kwargs w = (Raise e, w').
Proof.
  intros Hf.
  split; exact (bounded_raises minimum maximum function args kwargs w e w' Hf).
Qed.

(** With the bounds the wrong way round the wrapper never returns the
    result of a function that returns a number other than NaN: a result
    below [minimum] becomes [minimum], and every other one becomes
    [maximum], which it exceeds.  A NaN is returned as it is. *)
Theorem bounded_inverted_bounds (minimum maximum : number)
    (f : pyfunction V W number) args kwargs w result w' :
  num_lt maximum minimum = true →
  f_call f args kwargs w = (Return result, w') →
  ∃ r',
    decorators.bounded minimum maximum f args kwargs w = (Return r', w') ∧
    mynumber.bounded minimum maximum f args kwargs w = (Return r', w') ∧
    (result ≠ NaN →
     r' = (if num_lt result minimum then minimum else maximum) ∧
     r' ≠ result) ∧
    (result = NaN → r' = NaN).
Proof.
  intros Hlt Hf.
  destruct (num_lt_not_nan _ _ Hlt) as [Hmax Hmin].
  unfold mynumber.bounded, mynumber.bounded_wrapper,
    decorators.bounded, decorators.bounded_wrapper, bind.
  rewrite Hf. cbn [py_lt py_gt number_ord].
  destruct (num_lt result minimum) eqn:Hlo.
  - exists minimum. unfold ret. do 2 (split; [reflexivity|]). split.
    + intros _. split; [done|]. intros ->.
      rewrite num_lt_irrefl in Hlo. discriminate.
    + intros ->. by destruct minimum.
  - assert (result = NaN ∨ result ≠ NaN) as [->|Hr]
      by (destruct result; auto).
    + exists NaN. destruct maximum; by repeat split.
    + apply (num_lt_false _ _ Hr Hmin) in Hlo.
      rewrite (num_lt_le_trans _ _ _ Hlt Hlo).
      exists maximum. unfold ret. do 2 (split; [reflexivity|]).
      split; [|done].
      intros _. split; [done|]. intros ->.
      pose proof (num_lt_le_trans _ _ _ Hlt Hlo) as Hc.
      rewrite num_lt_irrefl in Hc. discriminate.
Qed.

(** Decorating twice with the same bounds is decorating once, when the
    bounds are in order. *)
Theorem bounded_idempotent minimum maximum function args kwargs w :
  minimum ≤ maximum →
  decorators.bounded minimum maximum
    (wraps function (decorators.bounded minimum maximum function))
    args kwargs w
  = decorators.bounded minimum maximum function args kwargs w.
Proof.
  intros Hle.
  unfold decorators.bounded at 1, decorators.bounded_wrapper at 1.
  unfold bind at 1. cbn [wraps f_call].
  unfold decorators.bounded, decorators.bounded_wrapper, bind.
  cbn [py_lt py_gt Z_ord].
  destruct (f_call function args kwargs w) as [[result|e] w']; [|reflexivity].
  destruct (result <? minimum) eqn:Hlo; unfold ret.
  - rewrite Z.ltb_irrefl.
    assert ((minimum >? maximum) = false) as ->; [|reflexivity].
    rewrite Z.gtb_ltb. apply Z.ltb_ge. lia.
  - destruct (result >? maximum) eqn:Hhi.
    + assert ((maximum <? minimum) = false) as -> by (apply Z.ltb_ge; lia).
      assert ((maximum >? maximum) = false) as ->; [|reflexivity].
      rewrite Z.gtb_ltb. apply Z.ltb_irrefl.
    + by rewrite Hlo, Hhi.
Qed.
End BoundedFurther.

Lemma bounded_propagates_errors_witness :
  f_call failing [] [] tt = (Raise (mk_exn ValueError "no"), tt) ∧
  decorators.bounded 0 10 failing [] [] tt
  = (Raise (mk_exn ValueError "no"), tt) ∧
  mynumber.bounded 0 10 failing [] [] tt
  = (Raise (mk_exn ValueError "no"), tt).
Proof.
  split; [reflexivity|].
  exact (bounded_propagates_errors 0 10 failing [] [] tt
           (mk_exn ValueError "no") tt eq_refl).
Defined.

Lemma bounded_inverted_bounds_witness :
  num_lt (Int 0) (Int 10) = true ∧
  f_call (constant (Int 5)) [] [] tt = (Return (Int 5), tt) ∧
  ∃ r',
    decorators.bounded (Int 10) (Int 0) (constant (Int 5)) [] [] tt
    = (Return r', tt) ∧
    mynumber.bounded (Int 10) (Int 0) (constant (Int 5)) [] [] tt
    = (Return r', tt) ∧
    (Int 5 ≠ NaN →
     r' = (if num_lt (Int 5) (Int 10) then Int 10 else Int 0) ∧
     r' ≠ Int 5) ∧
    (Int 5 = NaN → r' = NaN).
Proof.
  assert (num_lt (Int 0) (Int 10) = true) as Hlt by reflexivity.
  split; [exact Hlt|]. split; [reflexivity|].
  exact (bounded_inverted_bounds (Int 10) (Int 0) (constant (Int 5))
           [] [] tt (Int 5) tt Hlt eq_refl).
Defined.

Lemma bounded_idempotent_witness :
  0 ≤ 10 ∧
  decorators.bounded 0 10
    (wraps (constant 15) (decorators.bounded 0 10 (constant 15))) [] [] tt
  = decorators.bounded 0 10 (constant 15) [] [] tt.
Proof.
  assert (0 ≤ 10) as Hle by lia.
  split; [exact Hle|].
  exact (bounded_idempotent 0 10 (constant 15) [] [] tt Hle).
Defined.

(** ** Signature Validator: acceptance, the return check, stacking *)

Section StrictlyTypedFurther.
Context {V : Type} `{!PyObject V} {W : Type}.
Implicit Types (w : W) (function : pyfunction V W V).

(** Decoration succeeds exactly when the return slot and every name of
    [args + kwonlyargs] are annotated; the [*args] and [**kwargs]
    parameters need no annotation.  It then leaves the state as it is. *)
Theorem strictly_typed_decorates_iff function w :
  (∃ wrapper w', decorators.strictly_typed function w = (Return wrapper, w'))
  ↔ is_Some (f_annotations function !! "return") ∧
    Forall (λ a, is_Some (f_annotations function !! a))
      (spec_args (f_argspec function) ++ spec_kwonlyargs (f_argspec function)).
Proof.
  split.
  - intros (wrapper & w' & Hdec).
    by destruct (strictly_typed_inv _ _ _ _ Hdec) as (_ & _ & Hr & Hall).
  - intros [Hr Hall]. eexists _, _. by apply strictly_typed_accepts.
Qed.

(** The return check comes after the call: when the arguments pass and the
    function returns a value that is not an instance of the return
    annotation, the wrapper raises the assertion error of the return
    value, and the effects of the function stay. *)
Theorem strictly_typed_return_mismatch function args kwargs w result w' t :
  Forall (item_passes (f_annotations function))
    (decorators.all_args function args kwargs) →
  f_call function args kwargs w = (Return result, w') →
  f_annotations function !! "return" = Some t →
  isinstance result t = false →
  decorators.strictly_typed_wrapper function args kwargs w
  = (Raise (mk_exn AssertionError
              ("expected return of " +:+ class_repr t
               +:+ " got " +:+ class_repr (type result))), w').
Proof.
  intros Hall Hf Ht Hi.
  rewrite strictly_typed_wrapper_checked by done.
  unfold bind at 1. rewrite Hf.
  unfold bind at 1, decorators.annotations_getitem. rewrite Ht.
  unfold ret at 1. unfold bind, assert. by rewrite Hi.
Qed.

(** An exception of the function itself, raised after the arguments have
    passed, reaches the caller as it is. *)
Theorem strictly_typed_propagates_errors function args kwargs w e w' :
  Forall (item_passes (f_annotations function))
    (decorators.all_args function args kwargs) →
  f_call function args kwargs w = (Raise e, w') →
  decorators.strictly_typed_wrapper function args kwargs w = (Raise e, w').
Proof.
  intros Hall Hf.
  rewrite strictly_typed_wrapper_checked by done.
  unfold bind at 1. by rewrite Hf.
Qed.

(** The outcome of the call-time loop does not depend on the annotation
    of a name that is not among the checked items: the annotation can be
    changed or removed. *)
Theorem check_args_ignores_unchecked
    (annotations : gmap string pyclass) (l : list (string * V)) name t w :
  name ∉ l.*1 →
  decorators.check_args (<[name := t]> annotations) l w
  = decorators.check_args annotations l w ∧
  decorators.check_args (delete name annotations) l w
  = decorators.check_args annotations l w.
Proof.
  induction l as [|[k arg] l IH]; intros Hn; [done|].
  rewrite fmap_cons in Hn. apply not_elem_of_cons in Hn as [Hne Hn].
  cbn [fst] in Hne.
  destruct (IH Hn) as [IH1 IH2].
  cbn [decorators.check_args]. unfold bind, decorators.annotations_getitem.
  rewrite lookup_insert_ne, lookup_delete_ne by done.
  destruct (annotations !! k) as [t'|]; [|split; reflexivity].
  unfold ret, assert.
  destruct (isinstance arg t'); [|split; reflexivity].
  unfold ret. by rewrite IH1, IH2.
Qed.

(** Stacked on a function that one of these decorators has already
    wrapped, the validator sees no declared positional name: decoration
    asks for the return annotation only, and at a call only the keyword
    items are checked, so a call without keywords goes straight to the
    wrapped function whatever its positional arguments are. *)
Theorem strictly_typed_stacked {W0 R0} (inner : pyfunction V W0 R0)
    (wrapper : list V → list (string * V) → M W V) args kwargs w :
  ((∃ outer w', decorators.strictly_typed (wraps inner wrapper) w
                = (Return outer, w'))
   ↔ is_Some (f_annotations inner !! "return")) ∧
  decorators.all_args (wraps inner wrapper) args kwargs = kwargs ∧
  decorators.strictly_typed_wrapper (wraps inner wrapper) args [] w
  = (result <- wrapper args [] ;;
     t <- decorators.annotations_getitem (f_annotations inner) "return" ;;
     _ <- assert (isinstance result t)
            ("expected return of " +:+ class_repr t
             +:+ " got " +:+ class_repr (type result)) ;;
     ret result) w.
Proof.
  split; [|split; [reflexivity|]].
  - split.
    + intros (outer & w' & Hdec).
      by destruct (strictly_typed_inv _ _ _ _ Hdec) as (_ & _ & Hr & _).
    + intros Hr. eexists _, _. apply strictly_typed_accepts; [done|].
      constructor.
  - by rewrite strictly_typed_wrapper_checked by constructor.
Qed.
End StrictlyTypedFurther.

Lemma strictly_typed_return_mismatch_witness :
  Forall (item_passes (f_annotations wrong))
    (decorators.all_args wrong [VInt 1] []) ∧
  f_call wrong [VInt 1] [] 0%nat = (Return (VInt 1), 1%nat) ∧
  f_annotations wrong !! "return" = Some c_str ∧
  isinstance (VInt 1) c_str = false ∧
  decorators.strictly_typed_wrapper wrong [VInt 1] [] 0%nat
  = (Raise (mk_exn AssertionError
              ("expected return of " +:+ class_repr c_str
               +:+ " got " +:+ class_repr (type (VInt 1)))), 1%nat).
Proof.
  assert (Forall (item_passes (f_annotations wrong))
            (decorators.all_args wrong [VInt 1] [])) as Hall.
  { constructor; [|constructor]. exists c_int. split; reflexivity. }
  split; [exact Hall|]. do 3 (split; [reflexivity|]).
  exact (strictly_typed_return_mismatch wrong [VInt 1] [] 0%nat (VInt 1)
           1%nat c_str Hall eq_refl eq_refl eq_refl).
Defined.

Lemma strictly_typed_propagates_errors_witness :
  Forall (item_passes (f_annotations add))
    (decorators.all_args add [VInt 1] []) ∧
  f_call add [VInt 1] [] 0%nat = (Raise (mylog.bad_call "add"), 1%nat) ∧
  decorators.strictly_typed_wrapper add [VInt 1] [] 0%nat
  = (Raise (mylog.bad_call "add"), 1%nat).
Proof.
  assert (Forall (item_passes (f_annotations add))
            (decorators.all_args add [VInt 1] [])) as Hall.
  { constructor; [|constructor]. exists c_int. split; reflexivity. }
  split; [exact Hall|]. split; [reflexivity|].
  exact (strictly_typed_propagates_errors add [VInt 1] [] 0%nat
           (mylog.bad_call "add") 1%nat Hall eq_refl).
Defined.

Lemma check_args_ignores_unchecked_witness :
  ("b" ∉ (decorators.all_args add [VInt 1] []).*1) ∧
  decorators.check_args (<["b" := c_str]> (f_annotations add))
    (decorators.all_args add [VInt 1] []) 0%nat
  = decorators.check_args (f_annotations add)
      (decorators.all_args add [VInt 1] []) 0%nat ∧
  decorators.check_args (delete "b" (f_annotations add))
    (decorators.all_args add [VInt 1] []) 0%nat
  = decorators.check_args (f_annotations add)
      (decorators.all_args add [VInt 1] []) 0%nat.
Proof.
  assert ("b" ∉ (decorators.all_args add [VInt 1] []).*1) as Hn.
  { simpl. intros Hin. apply list_elem_of_singleton in Hin. discriminate. }
  split; [exact Hn|].
  exact (check_args_ignores_unchecked (f_annotations add)
           (decorators.all_args add [VInt 1] []) "b" c_str 0%nat Hn).
Defined.

(** ** Coroutine Primer: errors and what a returned generator tells *)

Section CoroutineFurther.
Context {V : Type} `{!PyObject V} {W St : Type}.
Implicit Types (function : pyfunction V W (@decorators.generator V W St)).

(** The wrapper returns a generator only after a [yield]: whenever it
    returns, the function gave a generator that had not finished, the one
    resumption of its body suspended at a [yield], and the generator
    returned is that one, suspended there. *)
Theorem coroutine_returns_after_yield function args kwargs w g' w2 :
  decorators.coroutine function args kwargs w = (Return g', w2) →
  ∃ g w1 s v s',
    f_call function args kwargs w = (Return g, w1) ∧
    decorators.gi_frame g = Some s ∧
    decorators.gi_code g s None w1 = (decorators.Yielded v s', w2) ∧
    g' = decorators.set_frame (Some s') g.
Proof.
  unfold decorators.coroutine, decorators.coroutine_wrapper.
  unfold bind at 1.
  destruct (f_call function args kwargs w) as [[g|e] w1]; [|discriminate].
  unfold bind, decorators.next.
  destruct (decorators.gi_frame g) as [s|] eqn:Hfr; [|discriminate].
  destruct (decorators.gi_code g s None w1) as [[v s'|v|e] w2'] eqn:Hst;
    [|discriminate..].
  unfold ret. intros [= <- <-].
  by exists g, w1, s, v, s'.
Qed.

(** Priming twice resumes the body twice: the generator returned is
    suspended at the second [yield], and both values are dropped. *)
Theorem coroutine_twice function args kwargs w g w1 s v1 s1 w2 v2 s2 w3 :
  f_call function args kwargs w = (Return g, w1) →
  decorators.gi_frame g = Some s →
  decorators.gi_code g s None w1 = (decorators.Yielded v1 s1, w2) →
  decorators.gi_code g s1 None w2 = (decorators.Yielded v2 s2, w3) →
  decorators.coroutine (wraps function (decorators.coroutine function))
    args kwargs w
  = (Return (decorators.set_frame (Some s2) g), w3).
Proof.
  intros Hf Hfr Hst1 Hst2.
  unfold decorators.coroutine at 1, decorators.coroutine_wrapper at 1.
  unfold bind at 1. cbn [wraps f_call].
  rewrite (coroutine_next _ _ _ _ _ _ Hf).
  unfold decorators.next at 1. rewrite Hfr, Hst1.
  unfold bind, decorators.next. cbn [snd decorators.set_frame
    decorators.gi_frame decorators.gi_code].
  by rewrite Hst2.
Qed.
End CoroutineFurther.

Lemma coroutine_constructor_raises_witness :
  f_call count [] [] 0%nat = (Raise (mylog.bad_call "count"), 0%nat) ∧
  decorators.coroutine count [] [] 0%nat
  = (Raise (mylog.bad_call "count"), 0%nat).
Proof.
  split; [reflexivity|].
  exact (coroutine_constructor_raises count [] [] 0%nat
           (mylog.bad_call "count") 0%nat eq_refl).
Defined.

Lemma coroutine_returns_after_yield_witness :
  decorators.coroutine count [VInt 0] [] 0%nat
  = (Return {| decorators.gi_frame := Some 1;
               decorators.gi_code := count_code |}, 1%nat) ∧
  ∃ g w1 s v s',
    f_call count [VInt 0] [] 0%nat = (Return g, w1) ∧
    decorators.gi_frame g = Some s ∧
    decorators.gi_code g s None w1 = (decorators.Yielded v s', 1%nat) ∧
    {| decorators.gi_frame := Some 1; decorators.gi_code := count_code |}
    = decorators.set_frame (Some s') g.
Proof.
  assert (decorators.coroutine count [VInt 0] [] 0%nat
          = (Return {| decorators.gi_frame := Some 1;
                       decorators.gi_code := count_code |}, 1%nat)) as Hc
    by reflexivity.
  split; [exact Hc|].
  exact (coroutine_returns_after_yield count [VInt 0] [] 0%nat _ 1%nat Hc).
Defined.

Lemma coroutine_twice_witness :
  f_call count [VInt 0] [] 0%nat
  = (Return {| decorators.gi_frame := Some 0;
               decorators.gi_code := count_code |}, 0%nat) ∧
  decorators.coroutine (wraps count (decorators.coroutine count))
    [VInt 0] [] 0%nat
  = (Return {| decorators.gi_frame := Some 2;
               decorators.gi_code := count_code |}, 2%nat).
Proof.
  split; [reflexivity|].
  exact (coroutine_twice count [VInt 0] [] 0%nat
           {| decorators.gi_frame := Some 0;
              decorators.gi_code := count_code |}
           0%nat 0 (VInt 1) 1 1%nat (VInt 2) 2 2%nat
           eq_refl eq_refl eq_refl eq_refl).
Defined.

